(** * Document tagger: a shallow embedding of [tag_document_ollama.py]

    The script asks a chat model for a title, a category, tags and a
    description of a document, validates the four answers with a pydantic
    model and retries the whole sequence on any failure.

    - Python [str] values are lists of Unicode code points.
    - [TaggingModel] is the pydantic model: length constraints first, then the
      two [@validator] functions.
    - [chat] (the [ollama] call) is an arbitrary stateful dependency: a
      function of the request and of a state [World] of its own.  It answers,
      raises an [Exception], or raises an exception that is not one
      ([KeyboardInterrupt], [SystemExit]), which [except Exception] lets
      through.  Everything observable that [get_tags] does (requests, log
      records, printed lines) is collected, in order, in a trace of events. *)

From Stdlib Require Import List ZArith NArith String Ascii Bool Lia DecimalString.
Import ListNotations.

Open Scope Z_scope.

(** ** Python strings and the built-ins the script uses *)

Module Py.

(** A character is a code point, a [str] a sequence of them. *)
Definition char := N.
Definition str := list char.

(** A literal of the source text (all literals of the script are ASCII). *)
Definition lit (s : string) : str := map N_of_ascii (list_ascii_of_string s).

Definition quote : str := [34%N].
Definition newline : char := 10%N.
Definition comma : char := 44%N.
Definition hash : char := 35%N.

Fixpoint str_eqb (a b : str) : bool :=
  match a, b with
  | [], [] => true
  | x :: a', y :: b' => N.eqb x y && str_eqb a' b'
  | _, _ => false
  end.

(** [len(s)] *)
Definition len (s : str) : nat := List.length s.

(** [s[:n]] for [n >= 0] *)
Definition slice_to (n : nat) (s : str) : str := firstn n s.

(** [c.isspace()]: the white-space code points of CPython. *)
Definition isspace (c : char) : bool :=
  ((9 <=? c) && (c <=? 13) || (28 <=? c) && (c <=? 32)
   || (c =? 133) || (c =? 160) || (c =? 5760)
   || (8192 <=? c) && (c <=? 8202)
   || (c =? 8232) || (c =? 8233) || (c =? 8239) || (c =? 8287)
   || (c =? 12288))%N.

Fixpoint lstrip (s : str) : str :=
  match s with
  | [] => []
  | c :: rest => if isspace c then lstrip rest else s
  end.

Definition rstrip (s : str) : str := rev (lstrip (rev s)).

(** [s.strip()] *)
Definition strip (s : str) : str := rstrip (lstrip s).

(** [s.split(sep)] for a separator of one character: every occurrence
    splits, empty items are kept, and the result is never empty. *)
Fixpoint split (sep : char) (s : str) : list str :=
  match s with
  | [] => [[]]
  | c :: rest =>
      if N.eqb c sep then [] :: split sep rest
      else match split sep rest with
           | [] => [[c]]
           | item :: items => (c :: item) :: items
           end
  end.

(** [sep.join(items)] *)
Fixpoint join (sep : str) (items : list str) : str :=
  match items with
  | [] => []
  | [item] => item
  | item :: rest => item ++ sep ++ join sep rest
  end.

(** [s.startswith(c)] for a prefix of one character *)
Definition startswith (c : char) (s : str) : bool :=
  match s with
  | [] => false
  | x :: _ => N.eqb x c
  end.

(** [str(n)] for an [int] *)
Definition str_of_int (n : Z) : str := lit (NilZero.string_of_int (Z.to_int n)).

(** [range(n)] *)
Definition range (n : Z) : list Z := map Z.of_nat (seq 0 (Z.to_nat n)).

(** A triple-quoted literal, written line by line. *)
Definition text (lines : list str) : str := join [newline] lines.

End Py.

Import Py.

(** ** [DocumentCategory] *)

Inductive DocumentCategory : Set :=
| DISTRIBUTED_SYSTEMS
| NATURAL_LANGUAGE_PROCESSING
| HARDWARE
| ALGORITHMS
| PERFORMANCE_ENGINEERING
| NETWORKS
| TEACHING
| MACHINE_LEARNING
| LINEAR_ALGEBRA
| OPERATING_SYSTEMS
| COMPUTER_SCIENCE
| DATABASE_DESIGN
| DATABASE_SYSTEMS
| GRAPH_THEORY
| MATHEMATICS
| OPERATIONS_RESEARCH
| SOFTWARE_ENGINEERING
| SYSTEM_DESIGN
| RESEARCH
| SYSTEMS
| OTHER.

(** [cat.value] *)
Definition value (cat : DocumentCategory) : str :=
  match cat with
  | DISTRIBUTED_SYSTEMS => lit "Distributed Systems"
  | NATURAL_LANGUAGE_PROCESSING => lit "Natural Language Processing"
  | HARDWARE => lit "Hardware"
  | ALGORITHMS => lit "Algorithms"
  | PERFORMANCE_ENGINEERING => lit "Performance Engineering"
  | NETWORKS => lit "Networks"
  | TEACHING => lit "Teaching"
  | MACHINE_LEARNING => lit "Machine Learning"
  | LINEAR_ALGEBRA => lit "Linear Algebra"
  | OPERATING_SYSTEMS => lit "Operating Systems"
  | COMPUTER_SCIENCE => lit "Computer Science"
  | DATABASE_DESIGN => lit "Database Design"
  | DATABASE_SYSTEMS => lit "Database Systems"
  | GRAPH_THEORY => lit "Graph Theory"
  | MATHEMATICS => lit "Mathematics"
  | OPERATIONS_RESEARCH => lit "Operations Research"
  | SOFTWARE_ENGINEERING => lit "Software Engineering"
  | SYSTEM_DESIGN => lit "System Design"
  | RESEARCH => lit "Research"
  | SYSTEMS => lit "Systems"
  | OTHER => lit "Other"
  end.

(** Iterating over the enumeration yields its members in definition order. *)
Definition members : list DocumentCategory :=
  [ DISTRIBUTED_SYSTEMS; NATURAL_LANGUAGE_PROCESSING; HARDWARE; ALGORITHMS;
    PERFORMANCE_ENGINEERING; NETWORKS; TEACHING; MACHINE_LEARNING;
    LINEAR_ALGEBRA; OPERATING_SYSTEMS; COMPUTER_SCIENCE; DATABASE_DESIGN;
    DATABASE_SYSTEMS; GRAPH_THEORY; MATHEMATICS; OPERATIONS_RESEARCH;
    SOFTWARE_ENGINEERING; SYSTEM_DESIGN; RESEARCH; SYSTEMS; OTHER ].

(** [DocumentCategory(v)]: the member whose value is [v]; [None] stands for
    the [ValueError] the enumeration raises when there is none. *)
Definition DocumentCategory_of (v : str) : option DocumentCategory :=
  find (fun cat => str_eqb (value cat) v) members.

(** The fixed category set: the values of the members. *)
Definition category_set : list str := map value members.

Definition is_category (v : str) : Prop := In v category_set.

(** ** Exceptions, observable events and the effect monad *)

(** The fields of [TaggingModel], by name. *)
Inductive field : Set := F_title | F_category | F_tags | F_description.

(** The two ways a constrained string fails (pydantic's error types). *)
Inductive violation : Set := string_too_short | string_too_long.

(** The exceptions that occur in a run.  [DependencyError msg] is an
    instance of [Exception] raised in the [try] block of
    [_get_single_field] (by the [chat] call itself, or by a response
    without [message.content]), with [msg] its [str()].  [Interrupt msg] is
    an exception raised there that is not an instance of [Exception]
    ([KeyboardInterrupt], [SystemExit], ...). *)
Inductive exn : Type :=
| DependencyError (msg : str)
| ValidationError (errors : list (field * violation))
| ValueError (msg : str)
| Interrupt (msg : str).

(** [isinstance(e, Exception)] *)
Definition is_Exception (e : exn) : bool :=
  match e with
  | Interrupt _ => false
  | _ => true
  end.

(** What a run does that can be observed from outside, in order. *)
Inductive event : Type :=
| Chat (prompt : str)          (* one request to the chat dependency *)
| LogWarning (msg : str)       (* logger.warning *)
| LogError (msg : str)         (* logger.error *)
| Print (msg : str).           (* print *)

(** What one request to the chat dependency does: it answers, it raises an
    instance of [Exception], or it raises an exception that is not one. *)
Inductive reply : Type :=
| Content (text : str)         (* response["message"]["content"] *)
| Raises (msg : str)           (* an Exception inside the try block *)
| Interrupts (msg : str).      (* KeyboardInterrupt, SystemExit, ... *)

Inductive outcome (A : Type) : Type :=
| Returns (a : A)
| Raised (e : exn).
Arguments Returns {A} a.
Arguments Raised {A} e.

(** A computation reads and updates the state of the dependency, returns or
    raises, and emits events. *)
Definition M (World A : Type) : Type := World -> outcome A * World * list event.

Definition ret {World A} (a : A) : M World A := fun w => (Returns a, w, []).

Definition raise {World A} (e : exn) : M World A := fun w => (Raised e, w, []).

Definition emit {World} (ev : event) : M World unit := fun w => (Returns tt, w, [ev]).

Definition bind {World A B} (m : M World A) (k : A -> M World B) : M World B :=
  fun w =>
    match m w with
    | (Returns a, w1, t1) =>
        match k a w1 with
        | (r, w2, t2) => (r, w2, t1 ++ t2)
        end
    | (Raised e, w1, t1) => (Raised e, w1, t1)
    end.

(** [try: m  except Exception as e: handler e]: an exception that is not
    an instance of [Exception] is not caught. *)
Definition try_except {World A} (m : M World A) (handler : exn -> M World A) : M World A :=
  fun w =>
    match m w with
    | (Returns a, w1, t1) => (Returns a, w1, t1)
    | (Raised e, w1, t1) =>
        if is_Exception e then
          match handler e w1 with
          | (r, w2, t2) => (r, w2, t1 ++ t2)
          end
        else (Raised e, w1, t1)
    end.

Declare Scope py_scope.
Delimit Scope py_scope with py.
Notation "x <- m ;; k" := (bind m (fun x => k))
  (at level 61, m at next level, right associativity) : py_scope.
Notation "m ;; k" := (bind m (fun _ => k))
  (at level 61, right associativity) : py_scope.
Open Scope py_scope.

(** The body of a [for] loop either falls through to the next iteration or
    returns from the enclosing function. *)
Inductive flow (A : Type) : Type :=
| Next
| Return (a : A).
Arguments Next {A}.
Arguments Return {A} a.

(** [for x in items: body x] followed by [after]. *)
Fixpoint for_each {World A B} (items : list A) (body : A -> M World (flow B))
  (after : M World B) : M World B :=
  match items with
  | [] => after
  | x :: rest =>
      f <- body x ;;
      match f with
      | Return b => ret b
      | Next => for_each rest body after
      end
  end.

(** The projections of a finished run. *)
Definition result_of {World A} (r : outcome A * World * list event) : outcome A := fst (fst r).
Definition world_of {World A} (r : outcome A * World * list event) : World := snd (fst r).
Definition trace_of {World A} (r : outcome A * World * list event) : list event := snd r.

(** The prompts sent to the dependency, in order. *)
Fixpoint chats (t : list event) : list str :=
  match t with
  | [] => []
  | Chat p :: rest => p :: chats rest
  | _ :: rest => chats rest
  end.

(** ** [TaggingModel] *)

(** The four fields, for the model instance as well as for the [dict]s it is
    built from and dumped to. *)
Record TaggingModel : Type := {
  title : str;
  category : str;
  tags : str;
  description : str
}.

(** [Field(..., min_length=, max_length=)] on a [str]. *)
Definition constrained (min_length : nat) (max_length : option nat) (v : str)
  : str + violation :=
  if (len v <? min_length)%nat then inr string_too_short
  else match max_length with
       | Some m => if (m <? len v)%nat then inr string_too_long else inl v
       | None => inl v
       end.

Section Validation.

Context {World : Type}.

(** A [@validator] runs on a value that passed the field's own constraints. *)
Definition validated (inner : str + violation) (validator : str -> M World str)
  : M World (str + violation) :=
  match inner with
  | inl v => v' <- validator v ;; ret (inl v')
  | inr err => ret (inr err)
  end.

Definition validate_tags (v : str) : M World str :=
  let tags := map strip (split comma v) in
  ret v.

Definition validate_category (v : str) : M World str :=
  match DocumentCategory_of v with
  | Some cat => ret (value cat)
  | None =>
      emit (Print (lit "Invalid category: " ++ v)) ;;
      ret (value OTHER)
  end.

Definition errors_of (f : field) (r : str + violation) : list (field * violation) :=
  match r with
  | inl _ => []
  | inr err => [(f, err)]
  end.

(** The constructor call on the keyword arguments [d]: every field is validated, in declaration order;
    the errors of all fields are raised together. *)
Definition TaggingModel_init (d : TaggingModel) : M World TaggingModel :=
  r_title <- validated (constrained 1 (Some 200%nat) (title d)) ret ;;
  r_category <- validated (constrained 1 (Some 50%nat) (category d)) validate_category ;;
  r_tags <- validated (constrained 1 None (tags d)) validate_tags ;;
  r_description <- validated (constrained 10 (Some 1000%nat) (description d)) ret ;;
  match r_title, r_category, r_tags, r_description with
  | inl t, inl c, inl g, inl ds =>
      ret {| title := t; category := c; tags := g; description := ds |}
  | _, _, _, _ =>
      raise (ValidationError (errors_of F_title r_title ++ errors_of F_category r_category
                              ++ errors_of F_tags r_tags
                              ++ errors_of F_description r_description))
  end.

(** [m.model_dump()] *)
Definition model_dump (m : TaggingModel) : TaggingModel := m.

End Validation.

(** ** Prompt construction *)

Definition _create_title_prompt (document_content : str) : str :=
  text
    [ lit "<task>Extract a technical document title</task>";
      [];
      lit "<context>";
      slice_to 1000 document_content ++ lit "  # Only first 1000 chars needed for title";
      lit "</context>";
      [];
      lit "<requirements>";
      lit "- Maximum length: 200 characters";
      lit "- If main heading exists (# or ##), use that directly";
      lit "- No markdown formatting in output";
      lit "- Must be specific and technical";
      lit "- Focus on core subject matter";
      lit "</requirements>";
      [];
      lit "<output_format>";
      lit "Title only, no explanations or additional text";
      lit "</output_format>";
      [];
      lit "<examples>";
      lit "Input: # Building Distributed Systems with Kafka";
      lit "Output: Building Distributed Systems with Kafka";
      [];
      lit "Input: This paper discusses optimization techniques...";
      lit "Output: Optimization Techniques for Large-Scale Systems";
      [];
      lit "Bad output: " ++ quote ++ lit "Title: Database Sharding Patterns" ++ quote;
      lit "Bad output: # Database Sharding Patterns";
      lit "</examples>" ].

Definition _create_category_prompt (document_content title : str) : str :=
  let categories :=
    join [newline] (map (fun cat => lit "- " ++ value cat) members) in
  text
    [ lit "<task>Categorize a technical document</task>";
      [];
      lit "<context>";
      lit "Title: " ++ title;
      lit "First 1000 chars: " ++ slice_to 1000 document_content;
      lit "</context>";
      [];
      lit "<valid_categories>";
      categories;
      lit "</valid_categories>";
      [];
      lit "<requirements>";
      lit "- Select exactly ONE category";
      lit "- Match category name exactly";
      lit "- Use Other only if no category fits";
      lit "</requirements>";
      [];
      lit "<output_format>";
      lit "Category name only, no explanations or additional text";
      lit "</output_format>";
      [];
      lit "<examples>";
      lit "Good: Database Systems";
      lit "Bad: " ++ quote ++ lit "Category: Database Systems" ++ quote;
      lit "Bad: This belongs in Database Systems";
      lit "</examples>" ].

Definition _create_tags_prompt (document_content title category : str) : str :=
  text
    [ lit "<task>Generate technical tags</task>";
      [];
      lit "<context>";
      lit "Title: " ++ title;
      lit "Category: " ++ category;
      lit "First 1500 chars: " ++ slice_to 1500 document_content;
      lit "</context>";
      [];
      lit "<requirements>";
      lit "- 3-7 tags total";
      lit "- Comma-separated format";
      lit "- Specific technical terms only";
      lit "- Mix of high-level and specific concepts";
      lit "- No markdown or formatting";
      lit "</requirements>";
      [];
      lit "<output_format>";
      lit "tag1, tag2, tag3";
      lit "No explanations or additional text";
      lit "</output_format>";
      [];
      lit "<examples>";
      lit "Good: distributed systems, fault tolerance, consensus algorithms";
      lit "Bad: " ++ quote ++ lit "Tags: databases, sql, indexing" ++ quote;
      lit "Bad: 1. databases 2. sql 3. indexing";
      lit "</examples>" ].

Definition _create_description_prompt (document_content title category tags : str) : str :=
  let headers :=
    join [newline] (filter (startswith hash) (split newline document_content)) in
  text
    [ lit "<task>Write technical document description</task>";
      [];
      lit "<context>";
      lit "Title: " ++ title;
      lit "Category: " ++ category;
      lit "Tags: " ++ tags;
      lit "Document headers:";
      headers;
      lit "</context>";
      [];
      lit "<requirements>";
      lit "- Maximum 3 sentences";
      lit "- No markdown formatting";
      lit "- Focus on technical content";
      lit "- Be specific about concepts covered";
      lit "- Maximum length: 1000 characters";
      lit "- Don't start with " ++ quote ++ lit "This document" ++ quote ++ lit " or similar";
      lit "</requirements>";
      [];
      lit "<output_format>";
      lit "Plain text description only";
      lit "No explanations or additional text";
      lit "</output_format>";
      [];
      lit "<examples>";
      lit "Good: Explores distributed consensus algorithms with focus on Raft implementation. Covers leader election, log replication, and safety proofs.";
      lit "Bad: " ++ quote ++ lit "Description: This document covers distributed systems..." ++ quote;
      lit "Bad: # Overview of consensus algorithms";
      lit "</examples>" ].

(** ** [DocumentTagger] *)

Section DocumentTagger.

(** The state of the chat dependency and the dependency itself:
    [chat model messages options] answers one request.  Nothing is assumed
    about it: its answers may depend on the request and on everything it has
    seen before. *)
Context {World : Type}.
Variable chat : str -> list (str * str) -> list (str * Z) -> World -> reply * World.

(** [str(e)] of a pydantic [ValidationError] (pydantic's own rendering). *)
Variable str_of_ValidationError : list (field * violation) -> str.

(** The attributes set by [__init__]. *)
Variable model_name : str.
Variable max_retries : Z.

Definition str_of_exn (e : exn) : str :=
  match e with
  | DependencyError msg => msg
  | ValidationError errors => str_of_ValidationError errors
  | ValueError msg => msg
  | Interrupt msg => msg
  end.

Definition system_content : str :=
  lit "You are a precise technical document analyzer. Your task is to output ONLY the requested information without any additional text, formatting, or explanations.".

Definition messages (prompt : str) : list (str * str) :=
  [ (lit "system", system_content); (lit "user", prompt) ].

Definition options : list (str * Z) := [ (lit "num_ctx", 2048); (lit "max_tokens", 200) ].

(** The request [_get_single_field] makes for a prompt. *)
Definition request (prompt : str) : World -> reply * World :=
  chat model_name (messages prompt) options.

(** The [chat(...)] call together with [response["message"]["content"]]. *)
Definition chat_content (prompt : str) : M World str :=
  fun w =>
    match request prompt w with
    | (Content text, w') => (Returns text, w', [Chat prompt])
    | (Raises msg, w') => (Raised (DependencyError msg), w', [Chat prompt])
    | (Interrupts msg, w') => (Raised (Interrupt msg), w', [Chat prompt])
    end.

Definition attempt_failed (n : Z) (e : exn) : str :=
  lit "Attempt " ++ str_of_int n ++ lit " failed: " ++ str_of_exn e.

Definition _get_single_field (prompt : str) (attempt_num : Z) : M World str :=
  try_except
    (content <- chat_content prompt ;;
     ret (strip content))
    (fun e =>
       emit (LogWarning (attempt_failed (attempt_num + 1) e)) ;;
       raise e).

(** The [try] block of [get_tags]. *)
Definition attempt_body (document_content : str) (attempt : Z) : M World TaggingModel :=
  title <- _get_single_field (_create_title_prompt document_content) attempt ;;
  category <- _get_single_field (_create_category_prompt document_content title) attempt ;;
  tags <- _get_single_field (_create_tags_prompt document_content title category) attempt ;;
  description <-
    _get_single_field
      (_create_description_prompt document_content title category tags) attempt ;;
  let tags_dict :=
    {| title := title; category := category; tags := tags; description := description |} in
  validated_tags <- TaggingModel_init tags_dict ;;
  ret (model_dump validated_tags).

(** The terminal error of [get_tags]. *)
Definition retries_exhausted : exn :=
  ValueError (lit "Failed to generate valid tags after " ++ str_of_int max_retries
              ++ lit " attempts").

(** The [except] block of [get_tags]. *)
Definition on_failure (attempt : Z) (e : exn) : M World (flow (option TaggingModel)) :=
  emit (LogWarning (attempt_failed (attempt + 1) e)) ;;
  if attempt =? max_retries - 1 then
    emit (LogError (lit "All attempts failed to generate valid tags")) ;;
    raise retries_exhausted
  else ret Next.

(** One iteration of the loop of [get_tags]. *)
Definition iteration (document_content : str) (attempt : Z)
  : M World (flow (option TaggingModel)) :=
  try_except
    (r <- attempt_body document_content attempt ;;
     ret (Return (Some r)))
    (on_failure attempt).

(** [get_tags]: [None] is what Python returns when the loop ends without a
    [return] or a [raise]. *)
Definition get_tags (document_content : str) : M World (option TaggingModel) :=
  for_each (range max_retries) (iteration document_content) (ret None).

End DocumentTagger.

(** ** A scripted dependency, for running the model

    The state is the list of answers still to give; a request takes the
    first one, and an exhausted script raises. *)
Definition scripted (model : str) (msgs : list (str * str)) (opts : list (str * Z))
  (script : list reply) : reply * list reply :=
  match script with
  | [] => (Raises (lit "connection refused"), [])
  | r :: rest => (r, rest)
  end.

(** A stand-in for pydantic's rendering of a validation error. *)
Definition render_errors (errors : list (field * violation)) : str :=
  str_of_int (Z.of_nat (List.length errors)) ++ lit " validation error(s) for TaggingModel".

Definition run_scripted (max_retries : Z) (doc : str) (script : list reply) :=
  get_tags scripted render_errors (lit "llama3.2") max_retries doc script.

(** ** Vocabulary of the specification *)

(** The length constraints of the four fields. *)
Definition field_constraints (d : TaggingModel) : Prop :=
  (1 <= len (title d) <= 200)%nat /\
  (1 <= len (category d) <= 50)%nat /\
  (1 <= len (tags d))%nat /\
  (10 <= len (description d) <= 1000)%nat.

(** What [validate_category] returns and what it prints. *)
Definition coerce (v : str) : str :=
  match DocumentCategory_of v with
  | Some cat => value cat
  | None => value OTHER
  end.

Definition category_prints (v : str) : list event :=
  match DocumentCategory_of v with
  | Some _ => []
  | None => [Print (lit "Invalid category: " ++ v)]
  end.

(** The record validation makes of a [dict] that satisfies the constraints. *)
Definition validated_record (d : TaggingModel) : TaggingModel :=
  {| title := title d; category := coerce (category d);
     tags := tags d; description := description d |}.

Section Runs.

Context {World : Type}.
Variable chat : str -> list (str * str) -> list (str * Z) -> World -> reply * World.
Variable str_of_ValidationError : list (field * violation) -> str.
Variable model_name : str.
Variable max_retries : Z.

Abbreviation ask := (request chat model_name).
Abbreviation warning n e := (LogWarning (attempt_failed str_of_ValidationError n e)).

(** The runs of one attempt on a document, from a state [w] of the
    dependency: it stops at the first request that raises (logging a warning
    when what is raised is an [Exception]), and validates the four stripped
    answers when none does. *)
Inductive attempt_run (doc : str) (k : Z) (w : World)
  : outcome TaggingModel * World * list event -> Prop :=
| fails_at_title msg w1 :
    ask (_create_title_prompt doc) w = (Raises msg, w1) ->
    attempt_run doc k w
      (Raised (DependencyError msg), w1,
       [ Chat (_create_title_prompt doc); warning (k + 1) (DependencyError msg) ])
| fails_at_category a1 w1 msg w2 :
    ask (_create_title_prompt doc) w = (Content a1, w1) ->
    ask (_create_category_prompt doc (strip a1)) w1 = (Raises msg, w2) ->
    attempt_run doc k w
      (Raised (DependencyError msg), w2,
       [ Chat (_create_title_prompt doc);
         Chat (_create_category_prompt doc (strip a1));
         warning (k + 1) (DependencyError msg) ])
| fails_at_tags a1 w1 a2 w2 msg w3 :
    ask (_create_title_prompt doc) w = (Content a1, w1) ->
    ask (_create_category_prompt doc (strip a1)) w1 = (Content a2, w2) ->
    ask (_create_tags_prompt doc (strip a1) (strip a2)) w2 = (Raises msg, w3) ->
    attempt_run doc k w
      (Raised (DependencyError msg), w3,
       [ Chat (_create_title_prompt doc);
         Chat (_create_category_prompt doc (strip a1));
         Chat (_create_tags_prompt doc (strip a1) (strip a2));
         warning (k + 1) (DependencyError msg) ])
| fails_at_description a1 w1 a2 w2 a3 w3 msg w4 :
    ask (_create_title_prompt doc) w = (Content a1, w1) ->
    ask (_create_category_prompt doc (strip a1)) w1 = (Content a2, w2) ->
    ask (_create_tags_prompt doc (strip a1) (strip a2)) w2 = (Content a3, w3) ->
    ask (_create_description_prompt doc (strip a1) (strip a2) (strip a3)) w3
      = (Raises msg, w4) ->
    attempt_run doc k w
      (Raised (DependencyError msg), w4,
       [ Chat (_create_title_prompt doc);
         Chat (_create_category_prompt doc (strip a1));
         Chat (_create_tags_prompt doc (strip a1) (strip a2));
         Chat (_create_description_prompt doc (strip a1) (strip a2) (strip a3));
         warning (k + 1) (DependencyError msg) ])
| interrupted_at_title msg w1 :
    ask (_create_title_prompt doc) w = (Interrupts msg, w1) ->
    attempt_run doc k w
      (Raised (Interrupt msg), w1, [ Chat (_create_title_prompt doc) ])
| interrupted_at_category a1 w1 msg w2 :
    ask (_create_title_prompt doc) w = (Content a1, w1) ->
    ask (_create_category_prompt doc (strip a1)) w1 = (Interrupts msg, w2) ->
    attempt_run doc k w
      (Raised (Interrupt msg), w2,
       [ Chat (_create_title_prompt doc);
         Chat (_create_category_prompt doc (strip a1)) ])
| interrupted_at_tags a1 w1 a2 w2 msg w3 :
    ask (_create_title_prompt doc) w = (Content a1, w1) ->
    ask (_create_category_prompt doc (strip a1)) w1 = (Content a2, w2) ->
    ask (_create_tags_prompt doc (strip a1) (strip a2)) w2 = (Interrupts msg, w3) ->
    attempt_run doc k w
      (Raised (Interrupt msg), w3,
       [ Chat (_create_title_prompt doc);
         Chat (_create_category_prompt doc (strip a1));
         Chat (_create_tags_prompt doc (strip a1) (strip a2)) ])
| interrupted_at_description a1 w1 a2 w2 a3 w3 msg w4 :
    ask (_create_title_prompt doc) w = (Content a1, w1) ->
    ask (_create_category_prompt doc (strip a1)) w1 = (Content a2, w2) ->
    ask (_create_tags_prompt doc (strip a1) (strip a2)) w2 = (Content a3, w3) ->
    ask (_create_description_prompt doc (strip a1) (strip a2) (strip a3)) w3
      = (Interrupts msg, w4) ->
    attempt_run doc k w
      (Raised (Interrupt msg), w4,
       [ Chat (_create_title_prompt doc);
         Chat (_create_category_prompt doc (strip a1));
         Chat (_create_tags_prompt doc (strip a1) (strip a2));
         Chat (_create_description_prompt doc (strip a1) (strip a2) (strip a3)) ])
| fails_validation a1 w1 a2 w2 a3 w3 a4 w4 errors t :
    ask (_create_title_prompt doc) w = (Content a1, w1) ->
    ask (_create_category_prompt doc (strip a1)) w1 = (Content a2, w2) ->
    ask (_create_tags_prompt doc (strip a1) (strip a2)) w2 = (Content a3, w3) ->
    ask (_create_description_prompt doc (strip a1) (strip a2) (strip a3)) w3
      = (Content a4, w4) ->
    ~ field_constraints
        {| title := strip a1; category := strip a2;
           tags := strip a3; description := strip a4 |} ->
    chats t = [] ->
    attempt_run doc k w
      (Raised (ValidationError errors), w4,
       [ Chat (_create_title_prompt doc);
         Chat (_create_category_prompt doc (strip a1));
         Chat (_create_tags_prompt doc (strip a1) (strip a2));
         Chat (_create_description_prompt doc (strip a1) (strip a2) (strip a3)) ] ++ t)
| succeeds a1 w1 a2 w2 a3 w3 a4 w4 :
    ask (_create_title_prompt doc) w = (Content a1, w1) ->
    ask (_create_category_prompt doc (strip a1)) w1 = (Content a2, w2) ->
    ask (_create_tags_prompt doc (strip a1) (strip a2)) w2 = (Content a3, w3) ->
    ask (_create_description_prompt doc (strip a1) (strip a2) (strip a3)) w3
      = (Content a4, w4) ->
    field_constraints
      {| title := strip a1; category := strip a2;
         tags := strip a3; description := strip a4 |} ->
    attempt_run doc k w
      (Returns {| title := strip a1; category := coerce (strip a2);
                  tags := strip a3; description := strip a4 |}, w4,
       [ Chat (_create_title_prompt doc);
         Chat (_create_category_prompt doc (strip a1));
         Chat (_create_tags_prompt doc (strip a1) (strip a2));
         Chat (_create_description_prompt doc (strip a1) (strip a2) (strip a3)) ]
       ++ category_prints (strip a2)).

(** The runs of the loop over the attempts still to make; [made] lists the
    attempts that were made, in order, each with how it ended. *)
Inductive loop_run (doc : str)
  : list Z -> World -> list (outcome TaggingModel * World * list event) ->
    outcome (option TaggingModel) * World * list event -> Prop :=
| loop_over w :
    loop_run doc [] w [] (Returns None, w, [])
| loop_returns k rest w r w1 t1 :
    attempt_run doc k w (Returns r, w1, t1) ->
    loop_run doc (k :: rest) w [(Returns r, w1, t1)] (Returns (Some r), w1, t1)
| loop_interrupted k rest w e w1 t1 :
    attempt_run doc k w (Raised e, w1, t1) ->
    is_Exception e = false ->
    loop_run doc (k :: rest) w [(Raised e, w1, t1)] (Raised e, w1, t1)
| loop_gives_up k rest w e w1 t1 :
    attempt_run doc k w (Raised e, w1, t1) ->
    is_Exception e = true ->
    k = max_retries - 1 ->
    loop_run doc (k :: rest) w [(Raised e, w1, t1)]
      (Raised (retries_exhausted max_retries), w1,
       t1 ++ [ warning (k + 1) e;
               LogError (lit "All attempts failed to generate valid tags") ])
| loop_retries k rest w e w1 t1 made res w2 t2 :
    attempt_run doc k w (Raised e, w1, t1) ->
    is_Exception e = true ->
    k <> max_retries - 1 ->
    loop_run doc rest w1 made (res, w2, t2) ->
    loop_run doc (k :: rest) w ((Raised e, w1, t1) :: made)
      (res, w2, t1 ++ warning (k + 1) e :: t2).

(** The prompts of one attempt, in order: the title prompt, then the
    category, tags and description prompts, each built from the answers
    before it; an attempt may stop after any of them. *)
Inductive in_order (doc : str) : list str -> Prop :=
| upto_title :
    in_order doc [ _create_title_prompt doc ]
| upto_category t :
    in_order doc [ _create_title_prompt doc; _create_category_prompt doc t ]
| upto_tags t c :
    in_order doc [ _create_title_prompt doc; _create_category_prompt doc t;
                   _create_tags_prompt doc t c ]
| upto_description t c g :
    in_order doc [ _create_title_prompt doc; _create_category_prompt doc t;
                   _create_tags_prompt doc t c;
                   _create_description_prompt doc t c g ].

End Runs.

(** The length bounds of a returned record. *)
Definition within_bounds (r : TaggingModel) : Prop :=
  (1 <= len (title r) <= 200)%nat /\
  (10 <= len (description r) <= 1000)%nat /\
  tags r <> [].

(** A run that ends with a record of a known category or with the terminal
    error. *)
Definition category_or_exhausted {World : Type} (max_retries : Z)
  (run : outcome (option TaggingModel) * World * list event) : Prop :=
  (exists r, result_of run = Returns (Some r) /\ is_category (category r))
  \/ result_of run = Raised (retries_exhausted max_retries).

(** The dependency raises on every request. *)
Definition always_raises {World : Type}
  (chat : str -> list (str * str) -> list (str * Z) -> World -> reply * World) : Prop :=
  forall model msgs opts w, exists msg w', chat model msgs opts w = (Raises msg, w').

(** *** Sample documents and scripts *)

Definition raft_document : str :=
  text [ lit "# Raft Consensus"; lit "This paper covers leader election..." ].

Definition raft_answers : list reply :=
  [ Content (lit "Raft Consensus");
    Content (lit "Distributed Systems");
    Content (lit "consensus, raft, leader election");
    Content (lit "Explores leader election in Raft.") ].

Definition raft_record : TaggingModel :=
  {| title := lit "Raft Consensus";
     category := lit "Distributed Systems";
     tags := lit "consensus, raft, leader election";
     description := lit "Explores leader election in Raft." |}.

(** A dependency that is never reachable. *)
Definition offline (model : str) (msgs : list (str * str)) (opts : list (str * Z))
  (w : unit) : reply * unit :=
  (Raises (lit "connection refused"), w).

(** A category outside the set, a single tag, a generic opening. *)
Definition blockchain_dict : TaggingModel :=
  {| title := lit "Ledgers";
     category := lit "Blockchain";
     tags := lit "ledger";
     description := lit "This document is about ledgers." |}.

(** A tags string of [S n] items. *)
Definition many_tags (n : nat) : str := join (lit ", ") (repeat (lit "tag") (S n)).

(** *** Further vocabulary *)

(** What the [except] block of [get_tags] logs after attempt number [k]
    ended as [a]: nothing after a record, nothing after an exception that is
    not an [Exception] (it is not caught); otherwise a warning, followed by
    the error record when the attempt was the last one. *)
Definition handler_events {World : Type}
  (str_of_ValidationError : list (field * violation) -> str) (max_retries : Z)
  (k : Z) (a : outcome TaggingModel * World * list event) : list event :=
  match result_of a with
  | Returns _ => []
  | Raised e =>
      if is_Exception e then
        LogWarning (attempt_failed str_of_ValidationError (k + 1) e)
        :: (if k =? max_retries - 1
            then [ LogError (lit "All attempts failed to generate valid tags") ]
            else [])
      else []
  end.

(** The events of a run whose attempts, numbered [ks], ended as [made]: those
    of each attempt, followed by what the handler logged after it. *)
Fixpoint run_trace {World : Type}
  (str_of_ValidationError : list (field * violation) -> str) (max_retries : Z)
  (ks : list Z) (made : list (outcome TaggingModel * World * list event))
  {struct made} : list event :=
  match made, ks with
  | a :: made', k :: ks' =>
      trace_of a ++ handler_events str_of_ValidationError max_retries k a
      ++ run_trace str_of_ValidationError max_retries ks' made'
  | _, _ => []
  end.

(** The dependency answers every request. *)
Definition always_answers {World : Type}
  (chat : str -> list (str * str) -> list (str * Z) -> World -> reply * World) : Prop :=
  forall model msgs opts w, exists text w', chat model msgs opts w = (Content text, w').

(** A string with no white space at either end. *)
Definition trimmed (s : str) : Prop :=
  (forall c rest, s = c :: rest -> isspace c = false) /\
  (forall front c, s = front ++ [c] -> isspace c = false).

(** The heading lines of a document, as the description prompt selects them. *)
Definition heading_lines (document_content : str) : list str :=
  filter (startswith hash) (split newline document_content).

(** The messages logged at level ERROR, and those logged at level WARNING. *)
Fixpoint log_errors (t : list event) : list str :=
  match t with
  | [] => []
  | LogError msg :: rest => msg :: log_errors rest
  | _ :: rest => log_errors rest
  end.

Fixpoint log_warnings (t : list event) : list str :=
  match t with
  | [] => []
  | LogWarning msg :: rest => msg :: log_warnings rest
  | _ :: rest => log_warnings rest
  end.

(** A script that is interrupted from the keyboard at the first request. *)
Definition interrupted_script : list reply := [ Interrupts (lit "KeyboardInterrupt") ].

(** A dependency that answers every request with the empty string. *)
Definition mute (model : str) (msgs : list (str * str)) (opts : list (str * Z))
  (w : unit) : reply * unit :=
  (Content [], w).

(** Two documents that differ only after their first 1500 characters. *)
Definition long_document (ending : str) : str := repeat 97%N 1500 ++ ending.

(** A document without heading lines, and two with the same ones. *)
Definition plain_document : str :=
  text [ lit "Raft is a consensus algorithm."; lit "It elects a leader." ].

Definition headed_document : str :=
  text [ lit "# Raft"; lit "Raft is a consensus algorithm."; lit "## Election" ].

Definition headings_only_document : str :=
  text [ lit "# Raft"; lit "## Election" ].

(** ** Strings and categories *)

Lemma str_eqb_eq (a b : str) : str_eqb a b = true <-> a = b.
Proof.
  revert b; induction a as [|x a IH]; intros [|y b]; simpl; split; try congruence; auto.
  - intros H. apply andb_true_iff in H as [Hx Hab].
    apply N.eqb_eq in Hx. apply IH in Hab. congruence.
  - intros H. injection H as -> ->. rewrite N.eqb_refl. simpl. now apply IH.
Qed.

Lemma DocumentCategory_of_Some (v : str) (cat : DocumentCategory) :
  DocumentCategory_of v = Some cat -> value cat = v.
Proof.
  unfold DocumentCategory_of. intros H.
  apply find_some in H as [_ H]. now apply str_eqb_eq.
Qed.

Lemma DocumentCategory_of_None (v : str) :
  DocumentCategory_of v = None -> ~ is_category v.
Proof.
  unfold DocumentCategory_of, is_category, category_set. intros H Hin.
  apply in_map_iff in Hin as (cat & Hv & Hcat).
  pose proof (find_none _ _ H cat Hcat) as Hne. simpl in Hne.
  assert (str_eqb (value cat) v = true) by now apply str_eqb_eq.
  congruence.
Qed.

Lemma value_is_category (cat : DocumentCategory) : is_category (value cat).
Proof.
  unfold is_category, category_set. apply in_map.
  destruct cat; simpl; tauto.
Qed.

Lemma coerce_is_category (v : str) : is_category (coerce v).
Proof. unfold coerce. destruct (DocumentCategory_of v); apply value_is_category. Qed.

Lemma coerce_member (v : str) : is_category v -> coerce v = v.
Proof.
  unfold coerce. intros Hin.
  destruct (DocumentCategory_of v) as [cat|] eqn:E.
  - now apply DocumentCategory_of_Some.
  - now apply DocumentCategory_of_None in E.
Qed.

Lemma coerce_other (v : str) : ~ is_category v -> coerce v = lit "Other".
Proof.
  unfold coerce. intros Hout.
  destruct (DocumentCategory_of v) as [cat|] eqn:E; [|reflexivity].
  apply DocumentCategory_of_Some in E. subst v.
  destruct Hout. apply value_is_category.
Qed.

Lemma split_nonempty (sep : char) (s : str) : split sep s <> [].
Proof.
  destruct s as [|c s]; simpl; [discriminate|].
  destruct (N.eqb c sep); [discriminate|].
  destruct (split sep s); discriminate.
Qed.

(** ** Validation *)

Lemma constrained_cases (lo : nat) (hi : option nat) (v : str) :
  (constrained lo hi v = inl v /\
   (lo <= len v)%nat /\ match hi with Some m => (len v <= m)%nat | None => True end)
  \/ (exists err, constrained lo hi v = inr err /\
      ~ ((lo <= len v)%nat /\ match hi with Some m => (len v <= m)%nat | None => True end)).
Proof.
  unfold constrained.
  destruct (Nat.ltb_spec (len v) lo).
  - right. exists string_too_short. split; [reflexivity|lia].
  - destruct hi as [m|].
    + destruct (Nat.ltb_spec m (len v)).
      * right. exists string_too_long. split; [reflexivity|lia].
      * left. auto.
    + left. auto.
Qed.

Section ValidationFacts.

Context {World : Type}.

Lemma validate_category_run (v : str) (w : World) :
  validate_category v w = (Returns (coerce v), w, category_prints v).
Proof.
  unfold validate_category, coerce, category_prints.
  destruct (DocumentCategory_of v); reflexivity.
Qed.

Lemma validate_tags_run (v : str) (w : World) :
  validate_tags v w = (Returns v, w, []).
Proof. reflexivity. Qed.

(** A [dict] within the constraints validates, to [validated_record]. *)
Lemma TaggingModel_init_ok (d : TaggingModel) (w : World) :
  field_constraints d ->
  TaggingModel_init d w = (Returns (validated_record d), w, category_prints (category d)).
Proof.
  intros (Ht & Hc & Hg & Hd).
  unfold TaggingModel_init, validated, bind.
  destruct (constrained_cases 1 (Some 200%nat) (title d)) as [(-> & _)|(e & _ & N)]; [|lia].
  destruct (constrained_cases 1 (Some 50%nat) (category d)) as [(-> & _)|(e & _ & N)]; [|lia].
  destruct (constrained_cases 1 None (tags d)) as [(-> & _)|(e & _ & N)]; [|tauto].
  destruct (constrained_cases 10 (Some 1000%nat) (description d)) as [(-> & _)|(e & _ & N)]; [|lia].
  cbn. rewrite validate_category_run. cbn.
  now rewrite !app_nil_r.
Qed.

(** A [dict] outside the constraints raises a validation error; validation
    never talks to the dependency. *)
Lemma TaggingModel_init_fail (d : TaggingModel) (w : World) :
  ~ field_constraints d ->
  exists errors t,
    TaggingModel_init d w = (Raised (ValidationError errors), w, t) /\ chats t = [].
Proof.
  intros Hn.
  unfold TaggingModel_init, validated, bind.
  destruct (constrained_cases 1 (Some 200%nat) (title d)) as [(-> & Ht)|(e1 & -> & _)];
  destruct (constrained_cases 1 (Some 50%nat) (category d)) as [(-> & Hc)|(e2 & -> & _)];
  destruct (constrained_cases 1 None (tags d)) as [(-> & Hg)|(e3 & -> & _)];
  destruct (constrained_cases 10 (Some 1000%nat) (description d)) as [(-> & Hd)|(e4 & -> & _)];
  cbn; try rewrite validate_category_run; cbn;
  try (destruct Hn; unfold field_constraints; tauto);
  eexists; eexists; (split; [reflexivity|]);
  unfold category_prints; destruct (DocumentCategory_of (category d)); reflexivity.
Qed.

Lemma field_constraints_dec (d : TaggingModel) : field_constraints d \/ ~ field_constraints d.
Proof. unfold field_constraints. lia. Qed.

Lemma TaggingModel_init_returns (d r : TaggingModel) (w w' : World) (t : list event) :
  TaggingModel_init d w = (Returns r, w', t) ->
  field_constraints d /\ r = validated_record d /\ w' = w /\ t = category_prints (category d).
Proof.
  intros H. destruct (field_constraints_dec d) as [Hd|Hd].
  - rewrite (TaggingModel_init_ok d w Hd) in H. injection H as <- <- <-. auto.
  - destruct (TaggingModel_init_fail d w Hd) as (errs & t' & E & _). congruence.
Qed.

Lemma TaggingModel_init_raised (d : TaggingModel) (e : exn) (w w' : World) (t : list event) :
  TaggingModel_init d w = (Raised e, w', t) ->
  ~ field_constraints d /\ (exists errors, e = ValidationError errors) /\ w' = w /\ chats t = [].
Proof.
  intros H. destruct (field_constraints_dec d) as [Hd|Hd].
  - rewrite (TaggingModel_init_ok d w Hd) in H. discriminate.
  - destruct (TaggingModel_init_fail d w Hd) as (errs & t' & E & Ht).
    rewrite E in H. injection H as <- <- <-. eauto.
Qed.

End ValidationFacts.

(** ** More on categories, validation and [strip] *)

(** Looking up the value of a member gives the member back. *)
Lemma DocumentCategory_of_value (cat : DocumentCategory) :
  DocumentCategory_of (value cat) = Some cat.
Proof. destruct cat; reflexivity. Qed.

Lemma value_length (cat : DocumentCategory) : (1 <= len (value cat) <= 50)%nat.
Proof. destruct cat; cbv; lia. Qed.

Lemma coerce_value (cat : DocumentCategory) : coerce (value cat) = value cat.
Proof. unfold coerce. now rewrite DocumentCategory_of_value. Qed.

Lemma coerce_cases (v : str) : exists cat, coerce v = value cat.
Proof. unfold coerce. destruct (DocumentCategory_of v) as [cat|]; eauto. Qed.

Lemma category_prints_value (cat : DocumentCategory) : category_prints (value cat) = [].
Proof. unfold category_prints. now rewrite DocumentCategory_of_value. Qed.

Lemma lstrip_head (s : str) (c : char) (rest : str) :
  lstrip s = c :: rest -> isspace c = false.
Proof.
  induction s as [|x s IH]; simpl; [discriminate|].
  destruct (isspace x) eqn:E; [exact IH|].
  intros H. injection H as <- _. exact E.
Qed.

Lemma lstrip_app_keep (l : str) (c : char) (r : str) :
  isspace c = false -> lstrip (l ++ c :: r) = lstrip l ++ c :: r.
Proof.
  intros Hc. induction l as [|x l IH]; simpl.
  - now rewrite Hc.
  - destruct (isspace x); [exact IH|reflexivity].
Qed.

(** [strip] leaves no white space at either end. *)
Lemma strip_trimmed (s : str) : trimmed (strip s).
Proof.
  unfold strip, rstrip. split.
  - destruct (lstrip s) as [|x xs] eqn:E; [discriminate|].
    pose proof (lstrip_head _ _ _ E) as Hx.
    cbn [rev]. rewrite (lstrip_app_keep _ _ [] Hx), rev_app_distr. cbn.
    intros c rest H. now injection H as <- _.
  - intros front c H.
    apply (f_equal (@rev char)) in H.
    rewrite rev_involutive, rev_app_distr in H. cbn in H.
    now apply lstrip_head in H.
Qed.

Lemma value_trimmed (cat : DocumentCategory) : trimmed (value cat).
Proof.
  assert (H : strip (value cat) = value cat) by (destruct cat; reflexivity).
  rewrite <- H. apply strip_trimmed.
Qed.

Section MoreValidationFacts.

Context {World : Type}.

(** What validation prints: the line of [validate_category], when the raw
    category has a valid length and is not a member. *)
Lemma TaggingModel_init_trace (d : TaggingModel) (w : World) :
  trace_of (TaggingModel_init d w)
  = match constrained 1 (Some 50%nat) (category d) with
    | inl v => category_prints v
    | inr _ => []
    end.
Proof.
  unfold TaggingModel_init, validated, bind, trace_of.
  destruct (constrained 1 (Some 200%nat) (title d));
  destruct (constrained 1 (Some 50%nat) (category d));
  destruct (constrained 1 None (tags d));
  destruct (constrained 10 (Some 1000%nat) (description d));
  cbn; try rewrite validate_category_run; cbn; now rewrite ?app_nil_r.
Qed.

Lemma TaggingModel_init_world (d : TaggingModel) (w : World) :
  world_of (TaggingModel_init d w) = w.
Proof.
  destruct (field_constraints_dec d) as [Hd|Hd].
  - now rewrite (TaggingModel_init_ok d w Hd).
  - destruct (TaggingModel_init_fail d w Hd) as (errs & t & E & _). now rewrite E.
Qed.

Lemma validated_record_constraints (d : TaggingModel) :
  field_constraints d -> field_constraints (validated_record d).
Proof.
  intros (Ht & _ & Hg & Hd). unfold field_constraints, validated_record.
  cbn [title category tags description].
  destruct (coerce_cases (category d)) as (cat & ->).
  pose proof (value_length cat). tauto.
Qed.

Lemma validated_record_fixed (d : TaggingModel) :
  validated_record (validated_record d) = validated_record d.
Proof.
  unfold validated_record. cbn [title category tags description].
  destruct (coerce_cases (category d)) as (cat & ->). now rewrite coerce_value.
Qed.

Lemma validated_record_revalidates (d : TaggingModel) (w : World) :
  field_constraints d ->
  TaggingModel_init (validated_record d) w = (Returns (validated_record d), w, []).
Proof.
  intros Hd.
  rewrite (TaggingModel_init_ok _ w (validated_record_constraints d Hd)).
  rewrite validated_record_fixed.
  unfold validated_record at 2. cbn [category].
  destruct (coerce_cases (category d)) as (cat & ->).
  now rewrite category_prints_value.
Qed.

End MoreValidationFacts.

(** ** What the prompts read of the document *)

Lemma slice_to_shorter (doc1 doc2 : str) :
  slice_to 1500 doc1 = slice_to 1500 doc2 -> slice_to 1000 doc1 = slice_to 1000 doc2.
Proof.
  unfold slice_to. intros H.
  change 1000%nat with (Nat.min 1000 1500).
  rewrite <- !firstn_firstn. now rewrite H.
Qed.

Lemma title_prompt_prefix (doc1 doc2 : str) :
  slice_to 1000 doc1 = slice_to 1000 doc2 ->
  _create_title_prompt doc1 = _create_title_prompt doc2.
Proof. intros H. unfold _create_title_prompt. now rewrite H. Qed.

Lemma category_prompt_prefix (doc1 doc2 title : str) :
  slice_to 1000 doc1 = slice_to 1000 doc2 ->
  _create_category_prompt doc1 title = _create_category_prompt doc2 title.
Proof. intros H. unfold _create_category_prompt. now rewrite H. Qed.

Lemma tags_prompt_prefix (doc1 doc2 title category : str) :
  slice_to 1500 doc1 = slice_to 1500 doc2 ->
  _create_tags_prompt doc1 title category = _create_tags_prompt doc2 title category.
Proof. intros H. unfold _create_tags_prompt. now rewrite H. Qed.

Lemma description_prompt_headings (doc1 doc2 title category tags : str) :
  heading_lines doc1 = heading_lines doc2 ->
  _create_description_prompt doc1 title category tags
  = _create_description_prompt doc2 title category tags.
Proof.
  intros H. unfold _create_description_prompt.
  change (filter (startswith hash) (split newline doc1)) with (heading_lines doc1).
  change (filter (startswith hash) (split newline doc2)) with (heading_lines doc2).
  now rewrite H.
Qed.

Lemma split_app (sep : char) (a b : str) :
  split sep (a ++ sep :: b) = split sep a ++ split sep b.
Proof.
  induction a as [|c a IH]; simpl.
  - now rewrite N.eqb_refl.
  - rewrite IH. destruct (N.eqb c sep); [reflexivity|].
    destruct (split sep a) as [|item items] eqn:E; [|reflexivity].
    now destruct (split_nonempty sep a).
Qed.

(** ** One attempt *)

Section TaggerFacts.

Context {World : Type}.
Variable chat : str -> list (str * str) -> list (str * Z) -> World -> reply * World.
Variable str_of_ValidationError : list (field * violation) -> str.
Variable model_name : str.
Variable max_retries : Z.

Abbreviation ask := (request chat model_name).
Abbreviation field_of := (_get_single_field chat str_of_ValidationError model_name).
Abbreviation attempt := (attempt_body chat str_of_ValidationError model_name).
Abbreviation warning n e := (LogWarning (attempt_failed str_of_ValidationError n e)).
Abbreviation loop doc ks :=
  (for_each ks (iteration chat str_of_ValidationError model_name max_retries doc) (ret None)).
Abbreviation tagger := (get_tags chat str_of_ValidationError model_name max_retries).
Abbreviation run_of := (loop_run chat str_of_ValidationError model_name max_retries).
Abbreviation attempt_of := (attempt_run chat str_of_ValidationError model_name).

Lemma get_single_field_content (prompt : str) (n : Z) (w w' : World) (text : str) :
  ask prompt w = (Content text, w') ->
  field_of prompt n w = (Returns (strip text), w', [Chat prompt]).
Proof.
  intros H. unfold _get_single_field, try_except, bind, chat_content.
  rewrite H. reflexivity.
Qed.

Lemma get_single_field_raises (prompt : str) (n : Z) (w w' : World) (msg : str) :
  ask prompt w = (Raises msg, w') ->
  field_of prompt n w
  = (Raised (DependencyError msg), w', [Chat prompt; warning (n + 1) (DependencyError msg)]).
Proof.
  intros H. unfold _get_single_field, try_except, bind, chat_content.
  rewrite H. reflexivity.
Qed.

Lemma get_single_field_interrupts (prompt : str) (n : Z) (w w' : World) (msg : str) :
  ask prompt w = (Interrupts msg, w') ->
  field_of prompt n w = (Raised (Interrupt msg), w', [Chat prompt]).
Proof.
  intros H. unfold _get_single_field, try_except, bind, chat_content.
  rewrite H. reflexivity.
Qed.

Lemma bind_returns {A B} (m : M World A) (k : A -> M World B) w a w1 t1 :
  m w = (Returns a, w1, t1) ->
  bind m k w = (let '(r, w2, t2) := k a w1 in (r, w2, t1 ++ t2)).
Proof. intros H. unfold bind. rewrite H. destruct (k a w1) as [[r w2] t2]. reflexivity. Qed.

Lemma bind_raised {A B} (m : M World A) (k : A -> M World B) w e w1 t1 :
  m w = (Raised e, w1, t1) -> bind m k w = (Raised e, w1, t1).
Proof. intros H. unfold bind. now rewrite H. Qed.

(** Every run of the [try] block is one of the runs of [attempt_run]. *)
Lemma attempt_body_run (doc : str) (k : Z) (w : World) :
  attempt_of doc k w (attempt doc k w).
Proof.
  unfold attempt_body.
  destruct (ask (_create_title_prompt doc) w) as [[a1|msg|msg] w1] eqn:E1.
  2:{ rewrite (bind_raised _ _ _ _ _ _ (get_single_field_raises _ k _ _ _ E1)).
      now apply fails_at_title. }
  2:{ rewrite (bind_raised _ _ _ _ _ _ (get_single_field_interrupts _ k _ _ _ E1)).
      now apply interrupted_at_title. }
  rewrite (bind_returns _ _ _ _ _ _ (get_single_field_content _ k _ _ _ E1)).
  destruct (ask (_create_category_prompt doc (strip a1)) w1) as [[a2|msg|msg] w2] eqn:E2.
  2:{ rewrite (bind_raised _ _ _ _ _ _ (get_single_field_raises _ k _ _ _ E2)).
      now apply fails_at_category with (w1 := w1). }
  2:{ rewrite (bind_raised _ _ _ _ _ _ (get_single_field_interrupts _ k _ _ _ E2)).
      now apply interrupted_at_category with (w1 := w1). }
  rewrite (bind_returns _ _ _ _ _ _ (get_single_field_content _ k _ _ _ E2)).
  destruct (ask (_create_tags_prompt doc (strip a1) (strip a2)) w2)
    as [[a3|msg|msg] w3] eqn:E3.
  2:{ rewrite (bind_raised _ _ _ _ _ _ (get_single_field_raises _ k _ _ _ E3)).
      now apply fails_at_tags with (w1 := w1) (w2 := w2). }
  2:{ rewrite (bind_raised _ _ _ _ _ _ (get_single_field_interrupts _ k _ _ _ E3)).
      now apply interrupted_at_tags with (w1 := w1) (w2 := w2). }
  rewrite (bind_returns _ _ _ _ _ _ (get_single_field_content _ k _ _ _ E3)).
  destruct (ask (_create_description_prompt doc (strip a1) (strip a2) (strip a3)) w3)
    as [[a4|msg|msg] w4] eqn:E4.
  2:{ rewrite (bind_raised _ _ _ _ _ _ (get_single_field_raises _ k _ _ _ E4)).
      now apply fails_at_description with (w1 := w1) (w2 := w2) (w3 := w3). }
  2:{ rewrite (bind_raised _ _ _ _ _ _ (get_single_field_interrupts _ k _ _ _ E4)).
      now apply interrupted_at_description with (w1 := w1) (w2 := w2) (w3 := w3). }
  rewrite (bind_returns _ _ _ _ _ _ (get_single_field_content _ k _ _ _ E4)).
  set (d := {| title := strip a1; category := strip a2;
               tags := strip a3; description := strip a4 |}).
  destruct (field_constraints_dec d) as [Hd|Hd].
  - rewrite (bind_returns _ _ _ _ _ _ (TaggingModel_init_ok d w4 Hd)).
    cbn. rewrite app_nil_r.
    now apply succeeds with (w1 := w1) (w2 := w2) (w3 := w3).
  - destruct (TaggingModel_init_fail d w4 Hd) as (errors & t & E & Ht).
    rewrite (bind_raised _ _ _ _ _ _ E). cbn.
    now apply fails_validation with (w1 := w1) (w2 := w2) (w3 := w3) (a4 := a4).
Qed.

(** ** The retry loop *)

Lemma chats_app (t1 t2 : list event) : chats (t1 ++ t2) = chats t1 ++ chats t2.
Proof.
  induction t1 as [|ev t1 IH]; [reflexivity|].
  destruct ev; simpl; now rewrite IH.
Qed.

Lemma chats_category_prints (v : str) : chats (category_prints v) = [].
Proof. unfold category_prints. now destruct (DocumentCategory_of v). Qed.

Lemma iteration_returns (doc : str) (k : Z) (w w1 : World) r t1 :
  attempt doc k w = (Returns r, w1, t1) ->
  iteration chat str_of_ValidationError model_name max_retries doc k w
  = (Returns (Return (Some r)), w1, t1).
Proof.
  intros H. unfold iteration, try_except.
  rewrite (bind_returns _ _ _ _ _ _ H). cbn. now rewrite app_nil_r.
Qed.

Lemma iteration_interrupted (doc : str) (k : Z) (w w1 : World) e t1 :
  attempt doc k w = (Raised e, w1, t1) ->
  is_Exception e = false ->
  iteration chat str_of_ValidationError model_name max_retries doc k w
  = (Raised e, w1, t1).
Proof.
  intros H He. unfold iteration, try_except.
  rewrite (bind_raised _ _ _ _ _ _ H). now rewrite He.
Qed.

Lemma iteration_gives_up (doc : str) (k : Z) (w w1 : World) e t1 :
  attempt doc k w = (Raised e, w1, t1) ->
  is_Exception e = true ->
  k = max_retries - 1 ->
  iteration chat str_of_ValidationError model_name max_retries doc k w
  = (Raised (retries_exhausted max_retries), w1,
     t1 ++ [ warning (k + 1) e; LogError (lit "All attempts failed to generate valid tags") ]).
Proof.
  intros H He Hk. unfold iteration, try_except.
  rewrite (bind_raised _ _ _ _ _ _ H). rewrite He.
  unfold on_failure, bind, emit. apply Z.eqb_eq in Hk. rewrite Hk. reflexivity.
Qed.

Lemma iteration_retries (doc : str) (k : Z) (w w1 : World) e t1 :
  attempt doc k w = (Raised e, w1, t1) ->
  is_Exception e = true ->
  k <> max_retries - 1 ->
  iteration chat str_of_ValidationError model_name max_retries doc k w
  = (Returns Next, w1, t1 ++ [ warning (k + 1) e ]).
Proof.
  intros H He Hk. unfold iteration, try_except.
  rewrite (bind_raised _ _ _ _ _ _ H). rewrite He.
  unfold on_failure, bind, emit. apply Z.eqb_neq in Hk. rewrite Hk. reflexivity.
Qed.

(** A failed attempt that is not the last one is logged and the loop goes on
    with the next attempt, from the state the failed one left. *)
Lemma loop_retries_eq (doc : str) (k : Z) (rest : list Z) (w w1 : World) e t1 :
  attempt doc k w = (Raised e, w1, t1) ->
  is_Exception e = true ->
  k <> max_retries - 1 ->
  loop doc (k :: rest) w
  = (result_of (loop doc rest w1), world_of (loop doc rest w1),
     t1 ++ warning (k + 1) e :: trace_of (loop doc rest w1)).
Proof.
  intros H He Hk. cbn [for_each].
  rewrite (bind_returns _ _ _ _ _ _ (iteration_retries doc k w w1 e t1 H He Hk)).
  destruct (for_each rest _ _ w1) as [[r w2] t2]. cbn.
  now rewrite <- app_assoc.
Qed.

Lemma loop_returns_eq (doc : str) (k : Z) (rest : list Z) (w w1 : World) r t1 :
  attempt doc k w = (Returns r, w1, t1) ->
  loop doc (k :: rest) w = (Returns (Some r), w1, t1).
Proof.
  intros H. cbn [for_each].
  rewrite (bind_returns _ _ _ _ _ _ (iteration_returns doc k w w1 r t1 H)).
  cbn. now rewrite app_nil_r.
Qed.

Lemma loop_gives_up_eq (doc : str) (k : Z) (rest : list Z) (w w1 : World) e t1 :
  attempt doc k w = (Raised e, w1, t1) ->
  is_Exception e = true ->
  k = max_retries - 1 ->
  loop doc (k :: rest) w
  = (Raised (retries_exhausted max_retries), w1,
     t1 ++ [ warning (k + 1) e; LogError (lit "All attempts failed to generate valid tags") ]).
Proof.
  intros H He Hk. cbn [for_each].
  now rewrite (bind_raised _ _ _ _ _ _ (iteration_gives_up doc k w w1 e t1 H He Hk)).
Qed.

Lemma loop_interrupted_eq (doc : str) (k : Z) (rest : list Z) (w w1 : World) e t1 :
  attempt doc k w = (Raised e, w1, t1) ->
  is_Exception e = false ->
  loop doc (k :: rest) w = (Raised e, w1, t1).
Proof.
  intros H He. cbn [for_each].
  now rewrite (bind_raised _ _ _ _ _ _ (iteration_interrupted doc k w w1 e t1 H He)).
Qed.

(** Every run of the loop is a run of [loop_run]. *)
Lemma loop_run_spec (doc : str) (ks : list Z) :
  forall w, exists made, run_of doc ks w made (loop doc ks w).
Proof.
  induction ks as [|k rest IH]; intros w.
  - exists []. apply loop_over.
  - pose proof (attempt_body_run doc k w) as Ha.
    destruct (attempt doc k w) as [[[r|e] w1] t1] eqn:E.
    + exists [(Returns r, w1, t1)].
      rewrite (loop_returns_eq doc k rest w w1 r t1 E). now apply loop_returns.
    + destruct (is_Exception e) eqn:He.
      * destruct (Z.eq_dec k (max_retries - 1)) as [Hk|Hk].
        -- exists [(Raised e, w1, t1)].
           rewrite (loop_gives_up_eq doc k rest w w1 e t1 E He Hk).
           now apply loop_gives_up.
        -- destruct (IH w1) as (made & Hmade).
           exists ((Raised e, w1, t1) :: made).
           rewrite (loop_retries_eq doc k rest w w1 e t1 E He Hk).
           destruct (for_each rest _ _ w1) as [[r w2] t2]. cbn.
           now apply loop_retries.
      * exists [(Raised e, w1, t1)].
        rewrite (loop_interrupted_eq doc k rest w w1 e t1 E He).
        now apply loop_interrupted.
Qed.

(** *** What the attempts of a run look like *)

Lemma attempt_in_order (doc : str) (k : Z) (w : World) a :
  attempt_of doc k w a -> in_order doc (chats (trace_of a)).
Proof.
  intros H. destruct H; unfold trace_of; cbn [snd]; cbn [chats app];
    rewrite ?chats_app, ?chats_category_prints; cbn [chats app];
    try match goal with Ht : chats _ = [] |- _ => rewrite Ht end;
    constructor.
Qed.

Lemma in_order_length (doc : str) (l : list str) :
  in_order doc l -> (1 <= List.length l <= 4)%nat.
Proof. intros H; destruct H; simpl; lia. Qed.

(** An attempt that made fewer than four requests stopped at a request that
    raised. *)
Lemma attempt_short (doc : str) (k : Z) (w : World) a :
  attempt_of doc k w a ->
  (List.length (chats (trace_of a)) < 4)%nat ->
  (exists msg, result_of a = Raised (DependencyError msg))
  \/ (exists msg, result_of a = Raised (Interrupt msg)).
Proof.
  intros H. destruct H; unfold trace_of, result_of; cbn [fst snd]; cbn [chats app];
    rewrite ?chats_app, ?chats_category_prints; cbn [chats app List.length];
    try match goal with Ht : chats _ = [] |- _ => rewrite Ht end;
    cbn [List.length]; intros Hlen; try lia; eauto.
Qed.

(** The requests of a run are those of its attempts, one attempt after the
    other. *)
Lemma loop_chats (doc : str) ks w made res :
  run_of doc ks w made res ->
  chats (trace_of res) = List.concat (map (fun a => chats (trace_of a)) made).
Proof.
  intros H. induction H; unfold trace_of in *; cbn [snd map List.concat] in *.
  - reflexivity.
  - now rewrite app_nil_r.
  - now rewrite app_nil_r.
  - rewrite chats_app. cbn. reflexivity.
  - rewrite chats_app. cbn [chats]. now rewrite IHloop_run.
Qed.

Lemma loop_made_length (doc : str) ks w made res :
  run_of doc ks w made res -> (List.length made <= List.length ks)%nat.
Proof. intros H. induction H; simpl; lia. Qed.

Lemma loop_made_attempts (doc : str) ks w made res :
  run_of doc ks w made res ->
  Forall (fun a => exists k w0, attempt_of doc k w0 a) made.
Proof. intros H. induction H; repeat constructor; eauto. Qed.

(** The ways a run of the loop ends: without an attempt, with the record of
    an attempt, with the terminal error, or with an exception of an attempt
    that is not an [Exception]. *)
Lemma loop_result (doc : str) ks w made res :
  run_of doc ks w made res ->
  (result_of res = Returns None /\ Forall (fun k => k <> max_retries - 1) ks)
  \/ (exists r k w0 w1 t1,
        result_of res = Returns (Some r) /\ world_of res = w1 /\
        attempt_of doc k w0 (Returns r, w1, t1))
  \/ result_of res = Raised (retries_exhausted max_retries)
  \/ (exists e k w0 w1 t1,
        result_of res = Raised e /\ is_Exception e = false /\
        attempt_of doc k w0 (Raised e, w1, t1)).
Proof.
  intros H. induction H; unfold result_of, world_of in *; cbn [fst snd] in *.
  - left. split; [reflexivity|constructor].
  - right; left. exists r, k, w, w1, t1. auto.
  - right; right; right. exists e, k, w, w1, t1. auto.
  - right; right; left. reflexivity.
  - destruct IHloop_run as [(Hr & Hf)|[Hs|[He|Hi]]]; auto.
Qed.

(** An attempt ends with an exception that is not an [Exception] only when
    a request raised it. *)
Lemma attempt_interrupted (doc : str) (k : Z) (w : World) e w1 t1 :
  attempt_of doc k w (Raised e, w1, t1) ->
  is_Exception e = false ->
  exists msg prompt w0, e = Interrupt msg /\ ask prompt w0 = (Interrupts msg, w1).
Proof.
  intros H He. inversion H; subst; try discriminate; eauto.
Qed.

(** *** The loop over [range max_retries] *)

Lemma range_nonpositive : max_retries <= 0 -> range max_retries = [].
Proof. intros H. unfold range. now replace (Z.to_nat max_retries) with 0%nat by lia. Qed.

Lemma range_has_last : 1 <= max_retries -> In (max_retries - 1) (range max_retries).
Proof.
  intros H. unfold range. apply in_map_iff.
  exists (Z.to_nat max_retries - 1)%nat. split; [lia|].
  apply in_seq. lia.
Qed.

(** With at least one attempt allowed, a run returns a record that an
    attempt produced, or raises the terminal error. *)
Lemma get_tags_ends (doc : str) (w : World) :
  1 <= max_retries ->
  (exists r k w0 w1 t1,
     result_of (tagger doc w) = Returns (Some r) /\ world_of (tagger doc w) = w1 /\
     attempt_of doc k w0 (Returns r, w1, t1))
  \/ result_of (tagger doc w) = Raised (retries_exhausted max_retries)
  \/ (exists e k w0 w1 t1,
        result_of (tagger doc w) = Raised e /\ is_Exception e = false /\
        attempt_of doc k w0 (Raised e, w1, t1)).
Proof.
  intros Hmax. unfold get_tags.
  destruct (loop_run_spec doc (range max_retries) w) as (made & Hrun).
  destruct (loop_result doc _ _ _ _ Hrun) as [(_ & Hall)|H]; [|exact H].
  rewrite Forall_forall in Hall.
  destruct (Hall _ (range_has_last Hmax)). reflexivity.
Qed.

Lemma get_tags_returns (doc : str) (w : World) (r : TaggingModel) :
  result_of (tagger doc w) = Returns (Some r) ->
  exists k w0 t1, attempt_of doc k w0 (Returns r, world_of (tagger doc w), t1).
Proof.
  intros Hr. unfold get_tags in *.
  destruct (loop_run_spec doc (range max_retries) w) as (made & Hrun).
  destruct (loop_result doc _ _ _ _ Hrun) as [(H & _)|[H|[H|H]]]; try congruence.
  - destruct H as (r' & k & w0 & w1 & t1 & Hres & Hw & Ha).
    rewrite Hr in Hres. injection Hres as <-. subst w1. eauto.
  - destruct H as (e & k & w0 & w1 & t1 & Hres & _). congruence.
Qed.

Lemma attempt_always_raises (doc : str) (k : Z) (w : World) a :
  always_raises chat ->
  attempt_of doc k w a ->
  (exists e, result_of a = Raised e /\ is_Exception e = true)
  /\ chats (trace_of a) = [ _create_title_prompt doc ].
Proof.
  intros Hchat Ha.
  destruct (Hchat model_name (messages (_create_title_prompt doc)) options w)
    as (msg0 & w0 & E0).
  destruct Ha; unfold request in *; try congruence.
  split; [eexists; split; reflexivity|reflexivity].
Qed.

Lemma loop_always_raises (doc : str) (n : nat) :
  always_raises chat ->
  forall i w made res,
    run_of doc (map Z.of_nat (seq i n)) w made res ->
    Z.of_nat (i + n) = max_retries ->
    List.length made = n /\
    Forall (fun a => chats (trace_of a) = [ _create_title_prompt doc ]) made /\
    ((1 <= n)%nat -> result_of res = Raised (retries_exhausted max_retries)).
Proof.
  intros Hchat. induction n as [|n IH]; intros i w made res Hrun.
  - inversion Hrun; subst. intros _. split; [reflexivity|]. split; [constructor|lia].
  - cbn [seq map] in Hrun. inversion Hrun; subst; intros Hsum;
      match goal with
      | Ha : attempt_of _ _ _ _ |- _ =>
          destruct (attempt_always_raises doc _ _ _ Hchat Ha) as ((e0 & He & Hexc) & Hc)
      end.
    + discriminate.
    + unfold result_of in He. cbn [fst] in He. injection He as <-. congruence.
    + assert (n = 0)%nat by lia. subst n.
      split; [reflexivity|]. split; [|reflexivity].
      constructor; [exact Hc|constructor].
    + assert (Hsum' : Z.of_nat (S i + n) = max_retries) by lia.
      match goal with
      | Hrest : run_of _ _ _ _ _ |- _ =>
          destruct (IH _ _ _ _ Hrest Hsum') as (Hlen & Hall & Hres)
      end.
      split; [simpl; lia|]. split; [constructor; assumption|].
      intros _. unfold result_of in *. cbn [fst] in *. apply Hres. lia.
Qed.

(** *** The trace of a run, and what the handler swallows *)

Lemma loop_run_trace (doc : str) ks w made res :
  run_of doc ks w made res ->
  trace_of res = run_trace str_of_ValidationError max_retries ks made.
Proof.
  intros H.
  induction H as [w|k rest w r w1 t1 Ha|k rest w e w1 t1 Ha He
                  |k rest w e w1 t1 Ha He Hk
                  |k rest w e w1 t1 made res w2 t2 Ha He Hk Hrest IH];
    cbn [run_trace]; unfold trace_of, handler_events, result_of in *; cbn [fst snd] in *.
  - reflexivity.
  - now rewrite !app_nil_r.
  - rewrite He. now rewrite !app_nil_r.
  - rewrite He. apply Z.eqb_eq in Hk. rewrite Hk. now rewrite app_nil_r.
  - rewrite He. apply Z.eqb_neq in Hk. rewrite Hk. cbn. now rewrite IH.
Qed.

(** A run that raises an [Exception] made all the attempts of the loop, all
    of which failed with an [Exception]; what it raises is the terminal
    error. *)
Lemma loop_exhausted (doc : str) (n : nat) :
  forall i w made res e,
    run_of doc (map Z.of_nat (seq i n)) w made res ->
    Z.of_nat (i + n) = max_retries ->
    result_of res = Raised e ->
    is_Exception e = true ->
    List.length made = n /\
    Forall (fun a => exists e', result_of a = Raised e' /\ is_Exception e' = true) made /\
    e = retries_exhausted max_retries.
Proof.
  induction n as [|n IH]; intros i w made res e Hrun.
  - inversion Hrun; subst. intros _ He. discriminate.
  - cbn [seq map] in Hrun. inversion Hrun; subst; intros Hsum He0 Hexc;
      unfold result_of in He0; cbn [fst] in He0.
    + discriminate.
    + injection He0 as <-. congruence.
    + assert (n = 0)%nat by lia. subst n.
      split; [reflexivity|]. split; [|now injection He0].
      constructor; [|constructor]. eexists; split; [reflexivity|assumption].
    + assert (Hsum' : Z.of_nat (S i + n) = max_retries) by lia.
      match goal with
      | Hrest : run_of _ _ _ _ _ |- _ =>
          destruct (IH _ _ _ _ e Hrest Hsum' He0 Hexc) as (Hlen & Hall & Hterm)
      end.
      split; [simpl; lia|]. split; [|exact Hterm].
      constructor; [eexists; split; [reflexivity|assumption]|exact Hall].
Qed.

(** An attempt that failed with an [Exception] and was not the last one
    allowed is followed by another attempt. *)
Lemma loop_swallows (doc : str) (n : nat) :
  forall i w made res,
    run_of doc (map Z.of_nat (seq i n)) w made res ->
    Z.of_nat (i + n) = max_retries ->
    forall before a after e,
      made = before ++ a :: after ->
      result_of a = Raised e ->
      is_Exception e = true ->
      Z.of_nat (i + List.length before) <> max_retries - 1 ->
      after <> [].
Proof.
  induction n as [|n IH]; intros i w made res Hrun.
  - inversion Hrun; subst. intros _ before a after x Hmade. now destruct before.
  - cbn [seq map] in Hrun. inversion Hrun; subst;
      intros Hsum before a after x Hmade Hres Hexc Hk.
    + destruct before as [|b before]; [|now destruct before].
      injection Hmade as <-. discriminate.
    + destruct before as [|b before]; [|now destruct before].
      injection Hmade as <-. unfold result_of in Hres. cbn [fst] in Hres.
      injection Hres as <-. congruence.
    + destruct before as [|b before]; [|now destruct before].
      cbn [List.length] in Hk. rewrite Nat.add_0_r in Hk. lia.
    + destruct before as [|b before].
      * injection Hmade as _ <-.
        match goal with
        | Hrest : run_of _ _ _ _ _ |- _ => inversion Hrest; subst; try discriminate
        end.
        destruct n; [|discriminate]. cbn [List.length] in Hk. lia.
      * injection Hmade as _ Hmade'.
        match goal with
        | Hrest : run_of _ _ _ _ _ |- _ =>
            apply (IH _ _ _ _ Hrest ltac:(lia) before a after x Hmade' Hres Hexc)
        end.
        cbn [List.length] in Hk. lia.
Qed.

Lemma run_trace_warning (n : nat) (before : list (outcome TaggingModel * World * list event)) :
  forall i made a after e,
    made = before ++ a :: after ->
    (List.length made <= n)%nat ->
    result_of a = Raised e ->
    is_Exception e = true ->
    In (warning (Z.of_nat (i + List.length before) + 1) e)
       (run_trace str_of_ValidationError max_retries (map Z.of_nat (seq i n)) made).
Proof.
  revert n. induction before as [|b before IH]; intros n i made a after e -> Hlen Hres Hexc;
    (destruct n as [|n]; [simpl in Hlen; lia|]); cbn [seq map run_trace app List.length].
  - apply in_or_app. right. apply in_or_app. left.
    unfold handler_events. rewrite Hres, Hexc, Nat.add_0_r. now left.
  - apply in_or_app. right. apply in_or_app. right.
    replace (i + S (List.length before))%nat with (S i + List.length before)%nat by lia.
    apply (IH n (S i) _ a after e eq_refl); [|exact Hres|exact Hexc].
    cbn [app List.length] in Hlen. lia.
Qed.

(** ** Properties of [get_tags] *)

(** C1 (as amended).  For a tagger with [max_retries >= 1], every document
    and every behaviour of the chat dependency: [get_tags] returns a record
    whose category is a member of the fixed category set, or raises the
    terminal retries-exhausted error, or lets through an exception of a
    request that is not an [Exception]. *)
Theorem get_tags_category_or_exhausted (doc : str) (w : World) :
  1 <= max_retries ->
  category_or_exhausted max_retries (tagger doc w)
  \/ (exists msg prompt w0 w1,
        ask prompt w0 = (Interrupts msg, w1) /\
        result_of (tagger doc w) = Raised (Interrupt msg)).
Proof.
  intros Hmax. unfold category_or_exhausted.
  destruct (get_tags_ends doc w Hmax)
    as [(r & k & w0 & w1 & t1 & Hr & _ & Ha)|[He|(e & k & w0 & w1 & t1 & Hr & He & Ha)]].
  - left. left. exists r. split; [exact Hr|].
    inversion Ha; subst. cbn [category]. apply coerce_is_category.
  - left. right. exact He.
  - right. destruct (attempt_interrupted doc k w0 e w1 t1 Ha He)
      as (msg & prompt & w2 & -> & Hask).
    exists msg, prompt, w2, w1. split; [exact Hask|exact Hr].
Qed.

(** C3.  For [max_retries >= 1] and a dependency that raises on every
    request, [get_tags] raises the terminal error after exactly
    [max_retries] attempts: the attempts made are [max_retries] in number,
    and the requests sent are [max_retries] title prompts. *)
Theorem get_tags_exhausts_after_max_retries (doc : str) (w : World) :
  1 <= max_retries ->
  always_raises chat ->
  exists made,
    run_of doc (range max_retries) w made (tagger doc w) /\
    Z.of_nat (List.length made) = max_retries /\
    result_of (tagger doc w) = Raised (retries_exhausted max_retries) /\
    chats (trace_of (tagger doc w))
    = repeat (_create_title_prompt doc) (Z.to_nat max_retries).
Proof.
  intros Hmax Hchat. unfold get_tags.
  destruct (loop_run_spec doc (range max_retries) w) as (made & Hrun).
  exists made. split; [exact Hrun|].
  assert (Hsum : Z.of_nat (0 + Z.to_nat max_retries) = max_retries) by lia.
  destruct (loop_always_raises doc (Z.to_nat max_retries) Hchat 0%nat w made _ Hrun Hsum)
    as (Hlen & Hall & Hres).
  split; [lia|]. split; [apply Hres; lia|].
  rewrite (loop_chats doc _ _ _ _ Hrun), <- Hlen.
  clear - Hall. induction Hall as [|a made Ha _ IH]; [reflexivity|].
  cbn [map List.concat List.length repeat]. now rewrite Ha, IH.
Qed.

(** C4.  Every record that passes validation, and so every record that
    [get_tags] returns, has a title of 1 to 200 characters, a description of
    10 to 1000 characters and a non-empty tags string. *)
Theorem returned_record_within_bounds :
  (forall (d r : TaggingModel) (w w' : World) (t : list event),
     TaggingModel_init d w = (Returns r, w', t) -> within_bounds r)
  /\ (forall (doc : str) (w : World) (r : TaggingModel),
       result_of (tagger doc w) = Returns (Some r) -> within_bounds r).
Proof.
  assert (Hok : forall d : TaggingModel, field_constraints d -> within_bounds (validated_record d)).
  { intros d (Ht & _ & Hg & Hd). unfold within_bounds, validated_record.
    cbn [title description tags].
    split; [exact Ht|]. split; [exact Hd|].
    intros E. rewrite E in Hg. simpl in Hg. lia. }
  split.
  - intros d r w w' t H.
    apply TaggingModel_init_returns in H as (Hd & -> & _). now apply Hok.
  - intros doc w r H.
    destruct (get_tags_returns doc w r H) as (k & w0 & t1 & Ha).
    inversion Ha; subst.
    match goal with Hd : field_constraints ?d |- _ => exact (Hok d Hd) end.
Qed.

(** C6.  The requests of a run are those of its attempts, one attempt after
    the other; each attempt asks for title, category, tags and description in
    this order and stops at the first request that raises (an [Exception] or
    not), the next attempt starting again with the title prompt.  So a run sends at most
    [max_retries * 4] requests, and fewer when some attempt stopped before
    its fourth request. *)
Theorem get_tags_requests_in_order (doc : str) (w : World) :
  exists made,
    run_of doc (range max_retries) w made (tagger doc w) /\
    chats (trace_of (tagger doc w)) = List.concat (map (fun a => chats (trace_of a)) made) /\
    Forall (fun a =>
              in_order doc (chats (trace_of a)) /\
              ((List.length (chats (trace_of a)) < 4)%nat ->
               (exists msg, result_of a = Raised (DependencyError msg))
               \/ (exists msg, result_of a = Raised (Interrupt msg)))) made /\
    (List.length made <= Z.to_nat max_retries)%nat /\
    (List.length (chats (trace_of (tagger doc w))) <= Z.to_nat max_retries * 4)%nat /\
    (Exists (fun a => (List.length (chats (trace_of a)) < 4)%nat) made ->
     (List.length (chats (trace_of (tagger doc w))) < Z.to_nat max_retries * 4)%nat).
Proof.
  unfold get_tags.
  destruct (loop_run_spec doc (range max_retries) w) as (made & Hrun).
  exists made.
  pose proof (loop_chats doc _ _ _ _ Hrun) as Hchats.
  pose proof (loop_made_length doc _ _ _ _ Hrun) as Hlen.
  pose proof (loop_made_attempts doc _ _ _ _ Hrun) as Hatt.
  unfold range in Hlen. rewrite length_map, length_seq in Hlen.
  assert (Hshape : Forall (fun a => in_order doc (chats (trace_of a))) made).
  { eapply Forall_impl; [|exact Hatt]. intros a (k & w0 & Ha).
    now apply attempt_in_order with (k := k) (w := w0). }
  assert (Hsum : (List.length (List.concat (map (fun a => chats (trace_of a)) made))
                  <= List.length made * 4)%nat /\
                 (Exists (fun a => (List.length (chats (trace_of a)) < 4)%nat) made ->
                  (List.length (List.concat (map (fun a => chats (trace_of a)) made))
                   < List.length made * 4)%nat)).
  { clear - Hshape. induction Hshape as [|a made Ha _ (IH1 & IH2)].
    - split; [simpl; lia|]. intros H. inversion H.
    - apply in_order_length in Ha. cbn [map List.concat List.length].
      rewrite length_app. split; [lia|].
      intros H. inversion H; subst; [lia|]. specialize (IH2 H1). lia. }
  destruct Hsum as (Hle & Hlt). rewrite Hchats.
  repeat split; try assumption; try lia.
  - eapply Forall_impl; [|exact Hatt]. intros a (k & w0 & Ha). split.
    + now apply attempt_in_order with (k := k) (w := w0).
    + now apply attempt_short with (doc := doc) (k := k) (w := w0).
  - intros H. specialize (Hlt H). lia.
Qed.

(** C7 (as amended).  The only exceptions that leave [get_tags] are the
    terminal retries-exhausted error, raised after the last of [max_retries]
    attempts, and an exception of a request that is not an [Exception].  An
    [Exception] of a request or of validation in an attempt that is not the
    last one is swallowed: the run logs it as a warning right after the
    attempt and goes on with the next attempt. *)
Theorem get_tags_raises_only_retries_exhausted (doc : str) (w : World) :
  exists made,
    run_of doc (range max_retries) w made (tagger doc w) /\
    trace_of (tagger doc w)
    = run_trace str_of_ValidationError max_retries (range max_retries) made /\
    (forall e,
       result_of (tagger doc w) = Raised e ->
       (e = retries_exhausted max_retries /\ Z.of_nat (List.length made) = max_retries)
       \/ (exists msg prompt w0 w1,
             e = Interrupt msg /\ ask prompt w0 = (Interrupts msg, w1))) /\
    (forall before a after e,
       made = before ++ a :: after ->
       result_of a = Raised e ->
       is_Exception e = true ->
       Z.of_nat (List.length before) <> max_retries - 1 ->
       after <> [] /\
       In (warning (Z.of_nat (List.length before) + 1) e) (trace_of (tagger doc w))).
Proof.
  unfold get_tags.
  destruct (loop_run_spec doc (range max_retries) w) as (made & Hrun).
  exists made. split; [exact Hrun|].
  pose proof (loop_run_trace doc _ _ _ _ Hrun) as Htrace.
  split; [exact Htrace|]. split.
  - intros e He.
    destruct (is_Exception e) eqn:Hexc.
    + left.
      assert (Hmax : 0 <= max_retries).
      { destruct (Z_lt_le_dec max_retries 0) as [H|H]; [|exact H].
        rewrite (range_nonpositive (Z.lt_le_incl _ _ H)) in He. discriminate. }
      assert (Hsum : Z.of_nat (0 + Z.to_nat max_retries) = max_retries) by lia.
      destruct (loop_exhausted doc (Z.to_nat max_retries) 0%nat w made _ e Hrun Hsum He Hexc)
        as (Hlen & _ & Hterm).
      split; [exact Hterm|lia].
    + right.
      destruct (loop_result doc _ _ _ _ Hrun)
        as [(H & _)|[(r & k & w0 & w1 & t1 & H & _)|[H|(e' & k & w0 & w1 & t1 & H & He' & Ha)]]];
        try congruence.
      * rewrite He in H. injection H as ->. discriminate.
      * rewrite He in H. injection H as <-.
        destruct (attempt_interrupted doc k w0 e w1 t1 Ha He') as (msg & prompt & w2 & -> & Hask).
        exists msg, prompt, w2, w1. auto.
  - intros before a after e Hmade Hres Hexc Hk.
    assert (Hlen : (List.length made <= Z.to_nat max_retries)%nat).
    { pose proof (loop_made_length doc _ _ _ _ Hrun) as H.
      unfold range in H. now rewrite length_map, length_seq in H. }
    assert (Hmax : 1 <= max_retries).
    { rewrite Hmade, length_app in Hlen. cbn [List.length] in Hlen. lia. }
    split.
    + apply (loop_swallows doc (Z.to_nat max_retries) 0%nat w made _ Hrun
               ltac:(lia) before a after e Hmade Hres Hexc).
      cbn [Nat.add]. exact Hk.
    + rewrite Htrace.
      pose proof (run_trace_warning (Z.to_nat max_retries) before 0%nat made a after e
                    Hmade Hlen Hres Hexc) as Hin.
      cbn [Nat.add] in Hin. exact Hin.
Qed.

(** C9.  With [max_retries <= 0], [get_tags] returns [None] for every
    document: it sends no request, logs nothing and raises nothing. *)
Theorem get_tags_none_without_retries (doc : str) (w : World) :
  max_retries <= 0 ->
  tagger doc w = (Returns None, w, []).
Proof.
  intros H. unfold get_tags. now rewrite (range_nonpositive H).
Qed.

(** C10.  Validation changes at most the category: the title, tags and
    description of a validated record are those it was given, and the record
    a successful [get_tags] returns holds the stripped answers of the
    requests of its last attempt (the category after coercion). *)
Theorem returned_fields_are_stripped_answers :
  (forall (d r : TaggingModel) (w w' : World) (t : list event),
     TaggingModel_init d w = (Returns r, w', t) ->
     title r = title d /\ tags r = tags d /\ description r = description d)
  /\ (forall (doc : str) (w : World) (r : TaggingModel),
       result_of (tagger doc w) = Returns (Some r) ->
       exists w0 a1 w1 a2 w2 a3 w3 a4,
         ask (_create_title_prompt doc) w0 = (Content a1, w1) /\
         ask (_create_category_prompt doc (strip a1)) w1 = (Content a2, w2) /\
         ask (_create_tags_prompt doc (strip a1) (strip a2)) w2 = (Content a3, w3) /\
         ask (_create_description_prompt doc (strip a1) (strip a2) (strip a3)) w3
           = (Content a4, world_of (tagger doc w)) /\
         title r = strip a1 /\
         category r = coerce (strip a2) /\
         tags r = strip a3 /\
         description r = strip a4).
Proof.
  split.
  - intros d r w w' t H.
    apply TaggingModel_init_returns in H as (_ & -> & _). auto.
  - intros doc w r H.
    destruct (get_tags_returns doc w r H) as (k & w0 & t1 & Ha).
    inversion Ha; subst.
    exists w0, a1, w1, a2, w2, a3, w3, a4. cbn. auto 10.
Qed.

(** ** More on attempts and on the loop *)

Lemma log_errors_app (t1 t2 : list event) : log_errors (t1 ++ t2) = log_errors t1 ++ log_errors t2.
Proof.
  induction t1 as [|ev t1 IH]; [reflexivity|].
  destruct ev; simpl; now rewrite IH.
Qed.

Lemma log_warnings_app (t1 t2 : list event) :
  log_warnings (t1 ++ t2) = log_warnings t1 ++ log_warnings t2.
Proof.
  induction t1 as [|ev t1 IH]; [reflexivity|].
  destruct ev; simpl; now rewrite IH.
Qed.

Lemma TaggingModel_init_logs (d : TaggingModel) (w : World) :
  log_errors (trace_of (TaggingModel_init d w)) = [] /\
  log_warnings (trace_of (TaggingModel_init d w)) = [].
Proof.
  rewrite TaggingModel_init_trace.
  destruct (constrained 1 (Some 50%nat) (category d)) as [v|]; [|split; reflexivity].
  unfold category_prints. destruct (DocumentCategory_of v); split; reflexivity.
Qed.

(** An attempt whose four requests are answered ends as validation does. *)
Lemma attempt_body_answered (doc : str) (k : Z) (w : World) a1 w1 a2 w2 a3 w3 a4 w4 :
  ask (_create_title_prompt doc) w = (Content a1, w1) ->
  ask (_create_category_prompt doc (strip a1)) w1 = (Content a2, w2) ->
  ask (_create_tags_prompt doc (strip a1) (strip a2)) w2 = (Content a3, w3) ->
  ask (_create_description_prompt doc (strip a1) (strip a2) (strip a3)) w3
    = (Content a4, w4) ->
  let d := {| title := strip a1; category := strip a2;
              tags := strip a3; description := strip a4 |} in
  attempt doc k w
  = (result_of (TaggingModel_init d w4), w4,
     [ Chat (_create_title_prompt doc);
       Chat (_create_category_prompt doc (strip a1));
       Chat (_create_tags_prompt doc (strip a1) (strip a2));
       Chat (_create_description_prompt doc (strip a1) (strip a2) (strip a3)) ]
     ++ trace_of (TaggingModel_init d w4)).
Proof.
  intros E1 E2 E3 E4 d. unfold attempt_body.
  rewrite (bind_returns _ _ _ _ _ _ (get_single_field_content _ k _ _ _ E1)).
  rewrite (bind_returns _ _ _ _ _ _ (get_single_field_content _ k _ _ _ E2)).
  rewrite (bind_returns _ _ _ _ _ _ (get_single_field_content _ k _ _ _ E3)).
  rewrite (bind_returns _ _ _ _ _ _ (get_single_field_content _ k _ _ _ E4)).
  fold d. pose proof (TaggingModel_init_world d w4) as Hw.
  unfold bind. destruct (TaggingModel_init d w4) as [[[r|e] w5] t5];
    unfold world_of, result_of, trace_of in *; cbn in *; subst w5;
    now rewrite ?app_nil_r.
Qed.

Lemma attempt_log_errors (doc : str) (k : Z) (w : World) :
  log_errors (trace_of (attempt doc k w)) = [].
Proof.
  pose proof (attempt_body_run doc k w) as H.
  remember (attempt doc k w) as a eqn:Ea.
  destruct H as [msg w1 E1|a1 w1 msg w2 E1 E2|a1 w1 a2 w2 msg w3 E1 E2 E3
                 |a1 w1 a2 w2 a3 w3 msg w4 E1 E2 E3 E4
                 |msg w1 E1|a1 w1 msg w2 E1 E2|a1 w1 a2 w2 msg w3 E1 E2 E3
                 |a1 w1 a2 w2 a3 w3 msg w4 E1 E2 E3 E4
                 |a1 w1 a2 w2 a3 w3 a4 w4 errs t E1 E2 E3 E4 Hd Ht
                 |a1 w1 a2 w2 a3 w3 a4 w4 E1 E2 E3 E4 Hd];
    try reflexivity.
  - rewrite (attempt_body_answered doc k w _ _ _ _ _ _ _ _ E1 E2 E3 E4) in Ea.
    injection Ea as _ Et. subst t.
    unfold trace_of at 1. cbn [snd]. rewrite log_errors_app.
    now rewrite (proj1 (TaggingModel_init_logs _ _)).
  - unfold trace_of. cbn [snd]. rewrite log_errors_app. cbn.
    unfold category_prints. now destruct (DocumentCategory_of (strip a2)).
Qed.

Lemma range_first : 1 <= max_retries ->
  range max_retries = 0 :: map Z.of_nat (seq 1 (Z.to_nat max_retries - 1)).
Proof.
  intros H. unfold range.
  replace (Z.to_nat max_retries) with (S (Z.to_nat max_retries - 1)) at 1 by lia.
  reflexivity.
Qed.

(** A run that returns a record stopped at the attempt that produced it,
    after failed attempts only. *)
Lemma loop_returned (doc : str) ks w made res (r : TaggingModel) :
  run_of doc ks w made res ->
  result_of res = Returns (Some r) ->
  exists failed t1,
    made = failed ++ [(Returns r, world_of res, t1)] /\
    Forall (fun a => exists e, result_of a = Raised e) failed.
Proof.
  intros Hrun. induction Hrun; unfold result_of, world_of in *; cbn [fst snd] in *;
    intros Hres; try discriminate.
  - injection Hres as <-. exists [], t1. split; [reflexivity|constructor].
  - destruct (IHHrun Hres) as (failed & t3 & -> & Hall).
    exists ((Raised e, w1, t1) :: failed), t3. split; [reflexivity|].
    constructor; [eexists; reflexivity|exact Hall].
Qed.

Lemma attempt_always_answers (doc : str) (k : Z) (w : World) a :
  always_answers chat ->
  attempt_of doc k w a ->
  List.length (chats (trace_of a)) = 4%nat.
Proof.
  intros Hchat Ha.
  destruct Ha; unfold trace_of; cbn [snd];
    rewrite ?chats_app, ?chats_category_prints;
    try match goal with Ht : chats _ = [] |- _ => rewrite Ht end;
    try reflexivity;
    match goal with
    | E : ask ?p ?w0 = (Raises _, _) |- _ =>
        destruct (Hchat model_name (messages p) options w0) as (text & w' & E');
        unfold request in E; congruence
    | E : ask ?p ?w0 = (Interrupts _, _) |- _ =>
        destruct (Hchat model_name (messages p) options w0) as (text & w' & E');
        unfold request in E; congruence
    end.
Qed.

(** The errors logged by the loop: one, at the very end, exactly when the
    loop raises the terminal error. *)
Lemma loop_log_errors (doc : str) (ks : list Z) :
  forall w,
    match result_of (loop doc ks w) with
    | Raised e =>
        if is_Exception e then
          e = retries_exhausted max_retries /\
          exists t,
            trace_of (loop doc ks w)
            = t ++ [ LogError (lit "All attempts failed to generate valid tags") ] /\
            log_errors t = []
        else log_errors (trace_of (loop doc ks w)) = []
    | Returns _ => log_errors (trace_of (loop doc ks w)) = []
    end.
Proof.
  induction ks as [|k rest IH]; intros w; [reflexivity|].
  pose proof (attempt_log_errors doc k w) as Hquiet.
  destruct (attempt doc k w) as [[[r|e] w1] t1] eqn:E; unfold trace_of in Hquiet; cbn in Hquiet.
  - rewrite (loop_returns_eq doc k rest w w1 r t1 E). exact Hquiet.
  - destruct (is_Exception e) eqn:He.
    + destruct (Z.eq_dec k (max_retries - 1)) as [Hk|Hk].
      * rewrite (loop_gives_up_eq doc k rest w w1 e t1 E He Hk).
        unfold result_of, trace_of. cbn [fst snd is_Exception retries_exhausted].
        split; [reflexivity|].
        exists (t1 ++ [ warning (k + 1) e ]). split.
        -- now rewrite <- app_assoc.
        -- rewrite log_errors_app, Hquiet. reflexivity.
      * rewrite (loop_retries_eq doc k rest w w1 e t1 E He Hk).
        specialize (IH w1). unfold result_of, trace_of in *. cbn [fst snd] in *.
        destruct (fst (fst (loop doc rest w1))) as [r'|e'].
        -- rewrite log_errors_app, Hquiet. cbn. exact IH.
        -- destruct (is_Exception e').
           ++ destruct IH as (Hterm & t & -> & Ht). split; [exact Hterm|].
              exists (t1 ++ warning (k + 1) e :: t). split.
              ** now rewrite <- app_assoc.
              ** rewrite log_errors_app, Hquiet. cbn. exact Ht.
           ++ rewrite log_errors_app, Hquiet. cbn. exact IH.
    + rewrite (loop_interrupted_eq doc k rest w w1 e t1 E He).
      unfold result_of, trace_of. cbn [fst snd]. rewrite He. exact Hquiet.
Qed.

Lemma attempt_log_warnings (doc : str) (k : Z) (w : World) (e : exn) :
  result_of (attempt doc k w) = Raised e ->
  log_warnings (trace_of (attempt doc k w))
  = match e with
    | DependencyError _ => [ attempt_failed str_of_ValidationError (k + 1) e ]
    | _ => []
    end.
Proof.
  pose proof (attempt_body_run doc k w) as H.
  remember (attempt doc k w) as a eqn:Ea.
  destruct H as [msg w1 E1|a1 w1 msg w2 E1 E2|a1 w1 a2 w2 msg w3 E1 E2 E3
                 |a1 w1 a2 w2 a3 w3 msg w4 E1 E2 E3 E4
                 |msg w1 E1|a1 w1 msg w2 E1 E2|a1 w1 a2 w2 msg w3 E1 E2 E3
                 |a1 w1 a2 w2 a3 w3 msg w4 E1 E2 E3 E4
                 |a1 w1 a2 w2 a3 w3 a4 w4 errs t E1 E2 E3 E4 Hd Ht
                 |a1 w1 a2 w2 a3 w3 a4 w4 E1 E2 E3 E4 Hd];
    unfold result_of, trace_of; cbn [fst snd]; intros He;
    try discriminate; injection He as <-; try reflexivity.
  rewrite (attempt_body_answered doc k w _ _ _ _ _ _ _ _ E1 E2 E3 E4) in Ea.
  injection Ea as _ Et. subst t.
  rewrite log_warnings_app. now rewrite (proj2 (TaggingModel_init_logs _ _)).
Qed.

(** ** Further properties of [get_tags] *)

(** X1.  When the four requests of the first attempt are answered and the
    stripped answers satisfy the length constraints, [get_tags] returns their
    record after exactly these four requests, and logs nothing. *)
Theorem get_tags_first_attempt_success (doc : str) (w : World) a1 w1 a2 w2 a3 w3 a4 w4 :
  1 <= max_retries ->
  ask (_create_title_prompt doc) w = (Content a1, w1) ->
  ask (_create_category_prompt doc (strip a1)) w1 = (Content a2, w2) ->
  ask (_create_tags_prompt doc (strip a1) (strip a2)) w2 = (Content a3, w3) ->
  ask (_create_description_prompt doc (strip a1) (strip a2) (strip a3)) w3
    = (Content a4, w4) ->
  field_constraints {| title := strip a1; category := strip a2;
                       tags := strip a3; description := strip a4 |} ->
  tagger doc w
  = (Returns (Some {| title := strip a1; category := coerce (strip a2);
                      tags := strip a3; description := strip a4 |}), w4,
     [ Chat (_create_title_prompt doc);
       Chat (_create_category_prompt doc (strip a1));
       Chat (_create_tags_prompt doc (strip a1) (strip a2));
       Chat (_create_description_prompt doc (strip a1) (strip a2) (strip a3)) ]
     ++ category_prints (strip a2)).
Proof.
  intros Hmax E1 E2 E3 E4 Hd. unfold get_tags. rewrite (range_first Hmax).
  apply loop_returns_eq.
  rewrite (attempt_body_answered doc 0 w _ _ _ _ _ _ _ _ E1 E2 E3 E4).
  now rewrite (TaggingModel_init_ok _ w4 Hd).
Qed.

(** X2.  [get_tags] never gives up early: when it raises an [Exception],
    this is the terminal error, and exactly [max_retries] attempts were made,
    every one of which failed with an [Exception]. *)
Theorem get_tags_raises_after_all_attempts (doc : str) (w : World) (e : exn) :
  result_of (tagger doc w) = Raised e ->
  is_Exception e = true ->
  e = retries_exhausted max_retries /\
  1 <= max_retries /\
  exists made,
    run_of doc (range max_retries) w made (tagger doc w) /\
    Z.of_nat (List.length made) = max_retries /\
    Forall (fun a => exists e', result_of a = Raised e' /\ is_Exception e' = true) made.
Proof.
  intros He Hexc.
  assert (Hmax : 1 <= max_retries).
  { destruct (Z_lt_le_dec 0 max_retries) as [H|H]; [lia|].
    unfold get_tags in He. rewrite (range_nonpositive H) in He. discriminate. }
  unfold get_tags in *.
  destruct (loop_run_spec doc (range max_retries) w) as (made & Hrun).
  assert (Hsum : Z.of_nat (0 + Z.to_nat max_retries) = max_retries) by lia.
  destruct (loop_exhausted doc (Z.to_nat max_retries) 0%nat w made _ e Hrun Hsum He Hexc)
    as (Hlen & Hall & Hterm).
  split; [exact Hterm|]. split; [exact Hmax|].
  exists made. split; [exact Hrun|]. split; [lia|exact Hall].
Qed.

(** X3.  A record returned by [get_tags] is the outcome of the last attempt
    made: all attempts before it failed, and that attempt sent all four
    prompts. *)
Theorem get_tags_returns_from_last_attempt (doc : str) (w : World) (r : TaggingModel) :
  result_of (tagger doc w) = Returns (Some r) ->
  exists made failed t1,
    run_of doc (range max_retries) w made (tagger doc w) /\
    made = failed ++ [(Returns r, world_of (tagger doc w), t1)] /\
    Forall (fun a => exists e, result_of a = Raised e) failed /\
    (List.length made <= Z.to_nat max_retries)%nat /\
    in_order doc (chats t1) /\ List.length (chats t1) = 4%nat.
Proof.
  intros Hr. unfold get_tags in *.
  destruct (loop_run_spec doc (range max_retries) w) as (made & Hrun).
  destruct (loop_returned doc _ _ _ _ r Hrun Hr) as (failed & t1 & Hmade & Hfailed).
  exists made, failed, t1. split; [exact Hrun|]. split; [exact Hmade|].
  split; [exact Hfailed|].
  pose proof (loop_made_length doc _ _ _ _ Hrun) as Hlen.
  unfold range in Hlen. rewrite length_map, length_seq in Hlen.
  split; [exact Hlen|].
  pose proof (loop_made_attempts doc _ _ _ _ Hrun) as Hatt.
  rewrite Forall_forall in Hatt.
  destruct (Hatt (Returns r, world_of (loop doc (range max_retries) w), t1))
    as (k & w0 & Ha).
  { rewrite Hmade. apply in_or_app. right. now left. }
  pose proof (attempt_in_order doc k w0 _ Ha) as Hord.
  pose proof (attempt_short doc k w0 _ Ha) as Hshort.
  unfold trace_of, result_of in *. cbn [fst snd] in *.
  split; [exact Hord|].
  apply in_order_length in Hord.
  destruct (Nat.lt_ge_cases (List.length (chats t1)) 4) as [Hlt|Hge]; [|lia].
  destruct (Hshort Hlt) as [(msg & Hmsg)|(msg & Hmsg)]; discriminate.
Qed.

(** X4.  A record at level ERROR is logged exactly when [get_tags] raises
    the terminal error: then it is logged once, as the last event of the
    run; a run that ends in any other way logs none. *)
Theorem get_tags_logs_error_iff_raises (doc : str) (w : World) :
  (result_of (tagger doc w) = Raised (retries_exhausted max_retries) ->
   exists t,
     trace_of (tagger doc w)
     = t ++ [ LogError (lit "All attempts failed to generate valid tags") ] /\
     log_errors t = [])
  /\ (result_of (tagger doc w) <> Raised (retries_exhausted max_retries) ->
      log_errors (trace_of (tagger doc w)) = []).
Proof.
  unfold get_tags.
  pose proof (loop_log_errors doc (range max_retries) w) as H.
  destruct (result_of (loop doc (range max_retries) w)) as [r|e].
  - split; [discriminate|]. intros _. exact H.
  - destruct (is_Exception e) eqn:He.
    + destruct H as (-> & Ht). split; [intros _; exact Ht|]. intros Hne. now destruct Hne.
    + split; [|intros _; exact H].
      intros Heq. injection Heq as ->. discriminate.
Qed.

(** X5.  With a dependency that answers every request, every attempt sends
    exactly four requests; so a run that raises has sent
    [max_retries * 4] requests. *)
Theorem get_tags_requests_when_answered (doc : str) (w : World) :
  always_answers chat ->
  exists made,
    run_of doc (range max_retries) w made (tagger doc w) /\
    List.length (chats (trace_of (tagger doc w))) = (List.length made * 4)%nat /\
    (forall e, result_of (tagger doc w) = Raised e ->
               List.length (chats (trace_of (tagger doc w)))
               = (Z.to_nat max_retries * 4)%nat).
Proof.
  intros Hchat. unfold get_tags.
  destruct (loop_run_spec doc (range max_retries) w) as (made & Hrun).
  exists made. split; [exact Hrun|].
  assert (Hall : Forall (fun a => List.length (chats (trace_of a)) = 4%nat) made).
  { eapply Forall_impl; [|exact (loop_made_attempts doc _ _ _ _ Hrun)].
    intros a (k & w0 & Ha). now apply attempt_always_answers with (doc := doc) (k := k) (w := w0). }
  assert (Hlen : List.length (chats (trace_of (loop doc (range max_retries) w)))
                 = (List.length made * 4)%nat).
  { rewrite (loop_chats doc _ _ _ _ Hrun). clear - Hall.
    induction Hall as [|a made Ha _ IH]; [reflexivity|].
    cbn [map List.concat List.length]. rewrite length_app, Ha, IH. lia. }
  split; [exact Hlen|].
  intros e He. rewrite Hlen.
  assert (Hsum : Z.of_nat (0 + Z.to_nat max_retries) = max_retries).
  { destruct (Z_lt_le_dec 0 max_retries) as [H|H]; [lia|].
    rewrite (range_nonpositive H) in He. discriminate. }
  assert (Hexc : is_Exception e = true).
  { destruct (is_Exception e) eqn:Hexc; [reflexivity|].
    destruct (loop_result doc _ _ _ _ Hrun)
      as [(H & _)|[(r & k & w0 & w1 & t1 & H & _)|[H|(e' & k & w0 & w1 & t1 & H & He' & Ha)]]];
      try congruence.
    - rewrite He in H. injection H as ->. discriminate.
    - destruct (attempt_interrupted doc k w0 e' w1 t1 Ha He') as (msg & prompt & w2 & _ & Hask).
      destruct (Hchat model_name (messages prompt) options w2) as (text & w' & E').
      unfold request in Hask. congruence. }
  destruct (loop_exhausted doc (Z.to_nat max_retries) 0%nat w made _ e Hrun Hsum He Hexc)
    as (Hmade & _).
  now rewrite Hmade.
Qed.

(** X6.  A failure of the dependency with an [Exception] is logged twice
    with the same message, once by [_get_single_field] and once by
    [get_tags]; a validation failure is logged once; an exception that is not
    an [Exception] is not logged. *)
Theorem failed_attempt_warnings (doc : str) (k : Z) (w : World) (e : exn) :
  result_of (attempt doc k w) = Raised e ->
  log_warnings
    (trace_of (iteration chat str_of_ValidationError model_name max_retries doc k w))
  = match e with
    | DependencyError _ =>
        [ attempt_failed str_of_ValidationError (k + 1) e;
          attempt_failed str_of_ValidationError (k + 1) e ]
    | Interrupt _ => []
    | _ => [ attempt_failed str_of_ValidationError (k + 1) e ]
    end.
Proof.
  intros He. pose proof (attempt_log_warnings doc k w e He) as Hw.
  destruct (attempt doc k w) as [[res w1] t1] eqn:E.
  unfold result_of, trace_of in He, Hw. cbn [fst snd] in He, Hw. subst res.
  destruct (is_Exception e) eqn:Hexc.
  - destruct (Z.eq_dec k (max_retries - 1)) as [Hk|Hk].
    + rewrite (iteration_gives_up doc k w w1 e t1 E Hexc Hk).
      unfold trace_of. cbn [snd]. rewrite log_warnings_app, Hw.
      destruct e; try reflexivity; discriminate.
    + rewrite (iteration_retries doc k w w1 e t1 E Hexc Hk).
      unfold trace_of. cbn [snd]. rewrite log_warnings_app, Hw.
      destruct e; try reflexivity; discriminate.
  - rewrite (iteration_interrupted doc k w w1 e t1 E Hexc).
    unfold trace_of. cbn [snd]. rewrite Hw.
    destruct e; try reflexivity; discriminate.
Qed.

(** X7.  What [_get_single_field] returns has no white space at either end,
    and neither has any field of a record returned by [get_tags]. *)
Theorem returned_fields_are_trimmed :
  (forall (prompt : str) (n : Z) (w w' : World) (s : str) (t : list event),
     field_of prompt n w = (Returns s, w', t) -> trimmed s)
  /\ (forall (doc : str) (w : World) (r : TaggingModel),
       result_of (tagger doc w) = Returns (Some r) ->
       trimmed (title r) /\ trimmed (category r) /\
       trimmed (tags r) /\ trimmed (description r)).
Proof.
  split.
  - intros prompt n w w' s t H.
    destruct (ask prompt w) as [[text|msg|msg] w1] eqn:E.
    + rewrite (get_single_field_content prompt n w w1 text E) in H.
      injection H as <- _ _. apply strip_trimmed.
    + rewrite (get_single_field_raises prompt n w w1 msg E) in H. discriminate.
    + rewrite (get_single_field_interrupts prompt n w w1 msg E) in H. discriminate.
  - intros doc w r H.
    destruct (get_tags_returns doc w r H) as (k & w0 & t1 & Ha).
    inversion Ha; subst. cbn [title category tags description].
    repeat split; try apply strip_trimmed.
    + destruct (coerce_cases (strip a2)) as (cat & ->).
      apply (proj1 (value_trimmed cat)).
    + destruct (coerce_cases (strip a2)) as (cat & ->).
      apply (proj2 (value_trimmed cat)).
Qed.

(** X8.  Validation is idempotent: a validated record, and so every record
    [get_tags] returns, validates again to itself, and prints nothing. *)
Theorem validated_record_validates_to_itself :
  (forall (d r : TaggingModel) (w w' w2 : World) (t : list event),
     TaggingModel_init d w = (Returns r, w', t) ->
     TaggingModel_init r w2 = (Returns r, w2, []))
  /\ (forall (doc : str) (w w2 : World) (r : TaggingModel),
       result_of (tagger doc w) = Returns (Some r) ->
       TaggingModel_init r w2 = (Returns r, w2, [])).
Proof.
  split.
  - intros d r w w' w2 t H.
    apply TaggingModel_init_returns in H as (Hd & -> & _).
    now apply validated_record_revalidates.
  - intros doc w w2 r H.
    destruct (get_tags_returns doc w r H) as (k & w0 & t1 & Ha).
    inversion Ha; subst.
    match goal with
    | Hd : field_constraints ?d |- _ => exact (validated_record_revalidates d w2 Hd)
    end.
Qed.

Lemma for_each_ext {A B : Type} (ks : list A) (body1 body2 : A -> M World (flow B))
  (after : M World B) :
  (forall x w, body1 x w = body2 x w) ->
  forall w, for_each ks body1 after w = for_each ks body2 after w.
Proof.
  intros Hbody. induction ks as [|x ks IH]; intros w; [reflexivity|].
  cbn [for_each]. unfold bind. rewrite Hbody.
  destruct (body2 x w) as [[[f|e] w1] t1]; [|reflexivity].
  destruct f; [|reflexivity]. now rewrite IH.
Qed.

Lemma attempt_body_same (doc1 doc2 : str) (k : Z) (w : World) :
  slice_to 1500 doc1 = slice_to 1500 doc2 ->
  heading_lines doc1 = heading_lines doc2 ->
  attempt doc1 k w = attempt doc2 k w.
Proof.
  intros H1500 Hhead. pose proof (slice_to_shorter _ _ H1500) as H1000.
  unfold attempt_body.
  rewrite (title_prompt_prefix _ _ H1000).
  destruct (ask (_create_title_prompt doc2) w) as [[a1|msg|msg] w1] eqn:E1.
  2:{ now rewrite !(bind_raised _ _ _ _ _ _ (get_single_field_raises _ k _ _ _ E1)). }
  2:{ now rewrite !(bind_raised _ _ _ _ _ _ (get_single_field_interrupts _ k _ _ _ E1)). }
  rewrite (bind_returns _ _ _ _ _ _ (get_single_field_content _ k _ _ _ E1)).
  rewrite (bind_returns _ _ _ _ _ _ (get_single_field_content _ k _ _ _ E1)).
  rewrite (category_prompt_prefix _ _ (strip a1) H1000).
  destruct (ask (_create_category_prompt doc2 (strip a1)) w1) as [[a2|msg|msg] w2] eqn:E2.
  2:{ now rewrite !(bind_raised _ _ _ _ _ _ (get_single_field_raises _ k _ _ _ E2)). }
  2:{ now rewrite !(bind_raised _ _ _ _ _ _ (get_single_field_interrupts _ k _ _ _ E2)). }
  rewrite (bind_returns _ _ _ _ _ _ (get_single_field_content _ k _ _ _ E2)).
  rewrite (bind_returns _ _ _ _ _ _ (get_single_field_content _ k _ _ _ E2)).
  rewrite (tags_prompt_prefix _ _ (strip a1) (strip a2) H1500).
  destruct (ask (_create_tags_prompt doc2 (strip a1) (strip a2)) w2)
    as [[a3|msg|msg] w3] eqn:E3.
  2:{ now rewrite !(bind_raised _ _ _ _ _ _ (get_single_field_raises _ k _ _ _ E3)). }
  2:{ now rewrite !(bind_raised _ _ _ _ _ _ (get_single_field_interrupts _ k _ _ _ E3)). }
  rewrite (bind_returns _ _ _ _ _ _ (get_single_field_content _ k _ _ _ E3)).
  rewrite (bind_returns _ _ _ _ _ _ (get_single_field_content _ k _ _ _ E3)).
  now rewrite (description_prompt_headings _ _ (strip a1) (strip a2) (strip a3) Hhead).
Qed.

(** X9.  [get_tags] reads of the document its first 1500 characters and its
    heading lines, and nothing else: on two documents that agree on both, it
    sends the same requests, logs the same records and ends the same way. *)
Theorem get_tags_same_on_agreeing_documents (doc1 doc2 : str) (w : World) :
  slice_to 1500 doc1 = slice_to 1500 doc2 ->
  heading_lines doc1 = heading_lines doc2 ->
  tagger doc1 w = tagger doc2 w.
Proof.
  intros H1500 Hhead. unfold get_tags. apply for_each_ext.
  intros k w0. unfold iteration, try_except, bind.
  now rewrite (attempt_body_same doc1 doc2 k w0 H1500 Hhead).
Qed.

End TaggerFacts.

(** ** Properties of validation and of the prompts *)

Lemma DocumentCategory_of_not_member (v : str) :
  ~ is_category v -> DocumentCategory_of v = None.
Proof.
  intros H. destruct (DocumentCategory_of v) as [cat|] eqn:E; [|reflexivity].
  apply DocumentCategory_of_Some in E. subst v. destruct H. apply value_is_category.
Qed.

Lemma split_length_cons (sep c : char) (s : str) :
  List.length (split sep (c :: s))
  = if N.eqb c sep then S (List.length (split sep s)) else List.length (split sep s).
Proof.
  simpl. destruct (N.eqb c sep); [reflexivity|].
  destruct (split sep s) eqn:E; [|reflexivity].
  now destruct (split_nonempty sep s).
Qed.

Lemma many_tags_S (n : nat) : many_tags (S n) = lit "tag" ++ lit ", " ++ many_tags n.
Proof. reflexivity. Qed.

(** C2.  A raw category outside the fixed set never survives validation:
    whenever the record validates its category is "Other", and it does
    validate, to the same title, tags and description, as soon as the four
    fields satisfy their length constraints. *)
Theorem unknown_category_becomes_other {World : Type} (d : TaggingModel) (w : World) :
  ~ is_category (category d) ->
  (forall r w' t, TaggingModel_init d w = (Returns r, w', t) -> category r = lit "Other")
  /\ (field_constraints d ->
      TaggingModel_init d w
      = (Returns {| title := title d; category := lit "Other";
                    tags := tags d; description := description d |},
         w, [ Print (lit "Invalid category: " ++ category d) ])).
Proof.
  intros Hout. split.
  - intros r w' t H. apply TaggingModel_init_returns in H as (_ & -> & _).
    cbn [validated_record category]. now apply coerce_other.
  - intros Hd. rewrite (TaggingModel_init_ok d w Hd).
    unfold validated_record, category_prints.
    rewrite (coerce_other _ Hout), (DocumentCategory_of_not_member _ Hout).
    reflexivity.
Qed.

(** C5.  The title prompt is the prompt of the first 1000 characters of the
    document, the tags prompt that of its first 1500 characters. *)
Theorem prompts_of_truncated_document (doc title category : str) :
  _create_title_prompt doc = _create_title_prompt (slice_to 1000 doc)
  /\ _create_tags_prompt doc title category
     = _create_tags_prompt (slice_to 1500 doc) title category.
Proof.
  unfold _create_title_prompt, _create_tags_prompt, slice_to.
  rewrite !firstn_firstn, !Nat.min_id. split; reflexivity.
Qed.

(** C8.  Validation puts no constraint on the number of tags nor on the
    opening of the description: a non-empty tags string passes unchanged, a
    record within the length constraints keeps its tags and description, and
    there are non-empty tags strings of every number of items. *)
Theorem tags_pass_whatever_their_number {World : Type} :
  (forall (v : str) (w : World),
     v <> [] ->
     validated (constrained 1 None v) validate_tags w = (Returns (inl v), w, []))
  /\ (forall (d : TaggingModel) (w : World),
       field_constraints d ->
       exists r t,
         TaggingModel_init d w = (Returns r, w, t) /\
         tags r = tags d /\ description r = description d)
  /\ (forall n : nat,
       many_tags n <> [] /\ List.length (split comma (many_tags n)) = S n).
Proof.
  split; [|split].
  - intros v w Hv.
    destruct (constrained_cases 1 None v) as [(-> & _)|(err & _ & N)].
    + reflexivity.
    + destruct N. split; [|exact I]. destruct v; [congruence|simpl; lia].
  - intros d w Hd. rewrite (TaggingModel_init_ok d w Hd).
    eexists; eexists. split; [reflexivity|]. split; reflexivity.
  - induction n as [|n (_ & IH)].
    + split; [discriminate|reflexivity].
    + rewrite many_tags_S.
      change (lit "tag" ++ lit ", " ++ many_tags n)
        with (116 :: 97 :: 103 :: 44 :: 32 :: many_tags n)%N.
      split; [discriminate|].
      rewrite !split_length_cons. cbn [N.eqb Pos.eqb comma]. now rewrite IH.
Qed.

(** ** The properties at sample runs *)

(** With no attempt allowed, and with a request interrupted from the
    keyboard, the run ends with neither a record nor the terminal error. *)
Lemma get_tags_category_or_exhausted_counterexample :
  ~ category_or_exhausted 0 (run_scripted 0 raft_document raft_answers)
  /\ ~ category_or_exhausted 3 (run_scripted 3 raft_document interrupted_script).
Proof.
  unfold category_or_exhausted.
  split; intros [(r & H & _)|H]; vm_compute in H; discriminate.
Qed.

Lemma get_tags_category_or_exhausted_witness :
  1 <= 3 /\
  (category_or_exhausted 3 (run_scripted 3 raft_document raft_answers)
   \/ exists msg prompt w0 w1,
        request scripted (lit "llama3.2") prompt w0 = (Interrupts msg, w1) /\
        result_of (run_scripted 3 raft_document raft_answers) = Raised (Interrupt msg)).
Proof.
  split; [lia|].
  apply (get_tags_category_or_exhausted scripted render_errors (lit "llama3.2") 3
           raft_document raft_answers).
  lia.
Defined.

Lemma unknown_category_becomes_other_witness :
  ~ is_category (category blockchain_dict) /\
  TaggingModel_init blockchain_dict tt
  = (Returns {| title := title blockchain_dict; category := lit "Other";
                tags := tags blockchain_dict;
                description := description blockchain_dict |},
     tt, [ Print (lit "Invalid category: " ++ category blockchain_dict) ]).
Proof.
  assert (Hout : ~ is_category (category blockchain_dict)).
  { apply DocumentCategory_of_None. reflexivity. }
  split; [exact Hout|].
  apply (proj2 (unknown_category_becomes_other blockchain_dict tt Hout)).
  unfold field_constraints. simpl. lia.
Defined.

Lemma get_tags_exhausts_after_max_retries_witness :
  1 <= 2 /\ always_raises offline /\
  result_of (get_tags offline render_errors (lit "llama3.2") 2 raft_document tt)
  = Raised (retries_exhausted 2).
Proof.
  assert (Hoff : always_raises offline).
  { intros model msgs opts w. exists (lit "connection refused"), w. reflexivity. }
  split; [lia|]. split; [exact Hoff|].
  destruct (get_tags_exhausts_after_max_retries offline render_errors (lit "llama3.2") 2
              raft_document tt ltac:(lia) Hoff) as (made & _ & _ & Hres & _).
  exact Hres.
Defined.

Lemma returned_record_within_bounds_witness :
  (TaggingModel_init raft_record raft_answers = (Returns raft_record, raft_answers, [])
   /\ within_bounds raft_record)
  /\ (result_of (run_scripted 3 raft_document raft_answers) = Returns (Some raft_record)
      /\ within_bounds raft_record).
Proof.
  assert (Hinit : TaggingModel_init raft_record raft_answers
                  = (Returns raft_record, raft_answers, [])) by reflexivity.
  assert (Hrun : result_of (run_scripted 3 raft_document raft_answers)
                 = Returns (Some raft_record)) by reflexivity.
  split; (split; [assumption|]).
  - exact (proj1 (returned_record_within_bounds scripted render_errors (lit "llama3.2") 3)
             raft_record raft_record raft_answers raft_answers [] Hinit).
  - exact (proj2 (returned_record_within_bounds scripted render_errors (lit "llama3.2") 3)
             raft_document raft_answers raft_record Hrun).
Defined.

(** A request interrupted from the keyboard at the first of three attempts:
    the interrupt leaves [get_tags], which is not the terminal error. *)
Lemma get_tags_raises_only_retries_exhausted_counterexample :
  ~ (forall e,
       result_of (run_scripted 3 raft_document interrupted_script) = Raised e ->
       e = retries_exhausted 3).
Proof.
  intros H.
  specialize (H (Interrupt (lit "KeyboardInterrupt")) eq_refl).
  discriminate.
Qed.

Lemma get_tags_raises_only_retries_exhausted_witness :
  result_of (run_scripted 2 raft_document []) = Raised (retries_exhausted 2)
  /\ exists made,
       loop_run scripted render_errors (lit "llama3.2") 2 raft_document (range 2) [] made
         (run_scripted 2 raft_document [])
       /\ Z.of_nat (List.length made) = 2.
Proof.
  assert (Hrun : result_of (run_scripted 2 raft_document []) = Raised (retries_exhausted 2))
    by reflexivity.
  split; [exact Hrun|].
  destruct (get_tags_raises_only_retries_exhausted scripted render_errors (lit "llama3.2") 2
              raft_document []) as (made & Hmade & _ & Hraise & _).
  exists made. split; [exact Hmade|].
  destruct (Hraise _ Hrun) as [(_ & Hlen)|(msg & prompt & w0 & w1 & Habs & _)].
  - exact Hlen.
  - discriminate.
Defined.

Lemma get_tags_none_without_retries_witness :
  0 <= 0 /\ run_scripted 0 raft_document raft_answers = (Returns None, raft_answers, []).
Proof.
  split; [lia|].
  apply (get_tags_none_without_retries scripted render_errors (lit "llama3.2") 0
           raft_document raft_answers).
  lia.
Defined.

Lemma returned_fields_are_stripped_answers_witness :
  (TaggingModel_init blockchain_dict raft_answers
   = (Returns (validated_record blockchain_dict), raft_answers,
      category_prints (category blockchain_dict))
   /\ title (validated_record blockchain_dict) = title blockchain_dict
   /\ tags (validated_record blockchain_dict) = tags blockchain_dict
   /\ description (validated_record blockchain_dict) = description blockchain_dict)
  /\ (result_of (run_scripted 3 raft_document raft_answers) = Returns (Some raft_record)
      /\ exists a1 a2 a3 a4,
           title raft_record = strip a1 /\ category raft_record = coerce (strip a2) /\
           tags raft_record = strip a3 /\ description raft_record = strip a4).
Proof.
  assert (Hinit : TaggingModel_init blockchain_dict raft_answers
                  = (Returns (validated_record blockchain_dict), raft_answers,
                     category_prints (category blockchain_dict))) by reflexivity.
  assert (Hrun : result_of (run_scripted 3 raft_document raft_answers)
                 = Returns (Some raft_record)) by reflexivity.
  split; (split; [assumption|]).
  - exact (proj1 (returned_fields_are_stripped_answers scripted render_errors
                    (lit "llama3.2") 3) _ _ _ _ _ Hinit).
  - destruct (proj2 (returned_fields_are_stripped_answers scripted render_errors
                       (lit "llama3.2") 3) raft_document raft_answers raft_record Hrun)
      as (w0 & a1 & w1 & a2 & w2 & a3 & w3 & a4 & _ & _ & _ & _ & Ht & Hc & Hg & Hd).
    exists a1, a2, a3, a4. auto.
Defined.

Lemma tags_pass_whatever_their_number_witness :
  (tags blockchain_dict <> [] /\
   validated (constrained 1 None (tags blockchain_dict)) validate_tags tt
   = (Returns (inl (tags blockchain_dict)), tt, []))
  /\ (field_constraints blockchain_dict /\
      exists r t,
        TaggingModel_init blockchain_dict tt = (Returns r, tt, t) /\
        tags r = tags blockchain_dict /\ description r = description blockchain_dict).
Proof.
  assert (Hne : tags blockchain_dict <> []) by discriminate.
  assert (Hd : field_constraints blockchain_dict).
  { unfold field_constraints. simpl. lia. }
  split; (split; [assumption|]).
  - exact (proj1 (@tags_pass_whatever_their_number unit) (tags blockchain_dict) tt Hne).
  - exact (proj1 (proj2 (@tags_pass_whatever_their_number unit)) blockchain_dict tt Hd).
Defined.

(** *** The scenarios of the specification *)

(** The dependency answers well: the record is returned at the first
    attempt, after four requests and nothing else. *)
Example raft_scenario :
  run_scripted 3 raft_document raft_answers
  = (Returns (Some raft_record), [],
     [ Chat (_create_title_prompt raft_document);
       Chat (_create_category_prompt raft_document (lit "Raft Consensus"));
       Chat (_create_tags_prompt raft_document (lit "Raft Consensus")
               (lit "Distributed Systems"));
       Chat (_create_description_prompt raft_document (lit "Raft Consensus")
               (lit "Distributed Systems") (lit "consensus, raft, leader election")) ]).
Proof. vm_compute. reflexivity. Qed.

(** The dependency answers with a category outside the set, in surrounding
    white space: the record has category "Other". *)
Example blockchain_scenario :
  result_of
    (run_scripted 3 raft_document
       [ Content (lit "Ledgers"); Content (lit " Blockchain ");
         Content (lit "ledger"); Content (lit "This document is about ledgers.") ])
  = Returns (Some {| title := lit "Ledgers"; category := lit "Other";
                     tags := lit "ledger";
                     description := lit "This document is about ledgers." |}).
Proof. vm_compute. reflexivity. Qed.

(** The dependency answers the first three requests of each attempt and
    raises at the fourth: [max_retries * 4] requests, then the terminal error. *)
Example failure_at_step_four_scenario :
  let answers := [ Content (lit "T"); Content (lit "Other"); Content (lit "a, b, c");
                   Raises (lit "timeout") ] in
  let run := run_scripted 2 raft_document (answers ++ answers) in
  result_of run = Raised (retries_exhausted 2) /\ List.length (chats (trace_of run)) = 8%nat.
Proof. vm_compute. split; reflexivity. Qed.

(** A category answer of more than fifty characters fails validation instead
    of being coerced; the attempt is retried. *)
Example long_category_scenario :
  let long := lit "This document belongs in the category Distributed Systems" in
  let run :=
    run_scripted 1 raft_document
      [ Content (lit "T"); Content long; Content (lit "a, b, c");
        Content (lit "Explores leader election in Raft.") ] in
  result_of run = Raised (retries_exhausted 1).
Proof. vm_compute. reflexivity. Qed.

(** A request interrupted from the keyboard: the interrupt leaves [get_tags]
    after one request, and nothing is logged. *)
Example interrupt_scenario :
  run_scripted 3 raft_document interrupted_script
  = (Raised (Interrupt (lit "KeyboardInterrupt")), [],
     [ Chat (_create_title_prompt raft_document) ]).
Proof. vm_compute. reflexivity. Qed.

Example strip_whitespace : strip (lit "  Raft Consensus ") = lit "Raft Consensus".
Proof. reflexivity. Qed.

Example split_keeps_empty_items :
  split comma (lit "a,,b,") = [ lit "a"; []; lit "b"; [] ].
Proof. reflexivity. Qed.

(** ** Further properties of categories, validation and prompts *)

(** X10.  A category and its label determine each other: looking up the
    label of a member gives the member, a lookup succeeds only on the label
    of the member found, and different members have different labels. *)
Theorem category_value_round_trip :
  (forall cat, DocumentCategory_of (value cat) = Some cat)
  /\ (forall v cat, DocumentCategory_of v = Some cat <-> v = value cat)
  /\ (forall c1 c2, value c1 = value c2 <-> c1 = c2).
Proof.
  split; [exact DocumentCategory_of_value|]. split.
  - intros v cat. split.
    + intros H. symmetry. now apply DocumentCategory_of_Some.
    + intros ->. apply DocumentCategory_of_value.
  - intros c1 c2. split; [|now intros ->].
    intros H. pose proof (DocumentCategory_of_value c1) as H1.
    rewrite H, DocumentCategory_of_value in H1. now injection H1.
Qed.

(** X11.  A category of the fixed set passes [validate_category] unchanged
    and without a printed line; a record within the length constraints whose
    category is of the set passes validation unchanged. *)
Theorem validate_category_keeps_members {World : Type} :
  (forall (v : str) (w : World),
     is_category v -> validate_category v w = (Returns v, w, []))
  /\ (forall (d : TaggingModel) (w : World),
       is_category (category d) -> field_constraints d ->
       TaggingModel_init d w = (Returns d, w, [])).
Proof.
  assert (Hsilent : forall v, is_category v -> category_prints v = []).
  { intros v Hv. unfold category_prints.
    destruct (DocumentCategory_of v) eqn:E; [reflexivity|].
    now apply DocumentCategory_of_None in E. }
  split.
  - intros v w Hv. rewrite validate_category_run.
    now rewrite (coerce_member v Hv), (Hsilent v Hv).
  - intros d w Hv Hd. rewrite (TaggingModel_init_ok d w Hd).
    unfold validated_record. rewrite (coerce_member _ Hv), (Hsilent _ Hv).
    now destruct d.
Qed.

(** X12.  Validation succeeds exactly on the records within the four length
    constraints and raises a validation error on all others; it never
    changes the state of the dependency and sends no request. *)
Theorem validation_succeeds_iff_constraints {World : Type} (d : TaggingModel) (w : World) :
  (field_constraints d <-> exists r, result_of (TaggingModel_init d w) = Returns r)
  /\ (~ field_constraints d <->
      exists errors, result_of (TaggingModel_init d w) = Raised (ValidationError errors))
  /\ world_of (TaggingModel_init d w) = w
  /\ chats (trace_of (TaggingModel_init d w)) = [].
Proof.
  assert (Hchats : chats (trace_of (TaggingModel_init d w)) = []).
  { rewrite TaggingModel_init_trace.
    destruct (constrained 1 (Some 50%nat) (category d)); [|reflexivity].
    unfold category_prints. now destruct (DocumentCategory_of s). }
  split; [|split; [|split; [apply TaggingModel_init_world|exact Hchats]]].
  - split.
    + intros Hd. rewrite (TaggingModel_init_ok d w Hd). eexists; reflexivity.
    + intros (r & Hr). destruct (field_constraints_dec d) as [Hd|Hd]; [exact Hd|].
      destruct (TaggingModel_init_fail d w Hd) as (errs & t & E & _).
      rewrite E in Hr. discriminate.
  - split.
    + intros Hd. destruct (TaggingModel_init_fail d w Hd) as (errs & t & E & _).
      rewrite E. eexists; reflexivity.
    + intros (errs & Hr) Hd. rewrite (TaggingModel_init_ok d w Hd) in Hr. discriminate.
Qed.

(** X13.  The category prompt, like the title prompt, reads only the first
    1000 characters of the document: two documents that agree on them get the
    same category prompt and the same title prompt. *)
Theorem category_prompt_reads_prefix (doc1 doc2 title : str) :
  slice_to 1000 doc1 = slice_to 1000 doc2 ->
  _create_category_prompt doc1 title = _create_category_prompt doc2 title
  /\ _create_title_prompt doc1 = _create_title_prompt doc2.
Proof.
  intros H. split; [now apply category_prompt_prefix|now apply title_prompt_prefix].
Qed.

(** X14.  The description prompt reads only the heading lines of the
    document: documents with the same heading lines get the same prompt, and
    a document without heading lines gets the prompt of the empty document. *)
Theorem description_prompt_reads_headings (doc1 doc2 title category tags : str) :
  (heading_lines doc1 = heading_lines doc2 ->
   _create_description_prompt doc1 title category tags
   = _create_description_prompt doc2 title category tags)
  /\ (heading_lines doc1 = [] ->
      _create_description_prompt doc1 title category tags
      = _create_description_prompt [] title category tags).
Proof.
  split; intros H; now apply description_prompt_headings.
Qed.

(** X15.  Heading lines are taken from the whole document, without
    truncation: the heading lines of two texts joined by a line break are
    those of the first followed by those of the second. *)
Theorem heading_lines_of_joined_texts (a b : str) :
  heading_lines (a ++ newline :: b) = heading_lines a ++ heading_lines b.
Proof. unfold heading_lines. now rewrite split_app, filter_app. Qed.

(** ** The further properties at sample runs *)

Lemma get_tags_first_attempt_success_witness :
  1 <= 3 /\
  field_constraints raft_record /\
  run_scripted 3 raft_document raft_answers
  = (Returns (Some raft_record), [],
     [ Chat (_create_title_prompt raft_document);
       Chat (_create_category_prompt raft_document (lit "Raft Consensus"));
       Chat (_create_tags_prompt raft_document (lit "Raft Consensus")
               (lit "Distributed Systems"));
       Chat (_create_description_prompt raft_document (lit "Raft Consensus")
               (lit "Distributed Systems") (lit "consensus, raft, leader election")) ]).
Proof.
  assert (Hmax : 1 <= 3) by lia.
  assert (Hd : field_constraints raft_record).
  { unfold field_constraints. simpl. lia. }
  split; [exact Hmax|]. split; [exact Hd|].
  exact (get_tags_first_attempt_success scripted render_errors (lit "llama3.2") 3
           raft_document raft_answers
           (lit "Raft Consensus") (skipn 1 raft_answers)
           (lit "Distributed Systems") (skipn 2 raft_answers)
           (lit "consensus, raft, leader election") (skipn 3 raft_answers)
           (lit "Explores leader election in Raft.") []
           Hmax eq_refl eq_refl eq_refl eq_refl Hd).
Defined.

Lemma get_tags_raises_after_all_attempts_witness :
  result_of (run_scripted 2 raft_document []) = Raised (retries_exhausted 2)
  /\ is_Exception (retries_exhausted 2) = true
  /\ 1 <= 2.
Proof.
  assert (Hrun : result_of (run_scripted 2 raft_document []) = Raised (retries_exhausted 2))
    by reflexivity.
  assert (Hexc : is_Exception (retries_exhausted 2) = true) by reflexivity.
  split; [exact Hrun|]. split; [exact Hexc|].
  exact (proj1 (proj2 (get_tags_raises_after_all_attempts scripted render_errors
                         (lit "llama3.2") 2 raft_document [] (retries_exhausted 2)
                         Hrun Hexc))).
Defined.

Lemma get_tags_returns_from_last_attempt_witness :
  result_of (run_scripted 3 raft_document raft_answers) = Returns (Some raft_record)
  /\ exists made, (List.length made <= Z.to_nat 3)%nat /\
                  loop_run scripted render_errors (lit "llama3.2") 3 raft_document
                    (range 3) raft_answers made
                    (run_scripted 3 raft_document raft_answers).
Proof.
  assert (Hrun : result_of (run_scripted 3 raft_document raft_answers)
                 = Returns (Some raft_record)) by reflexivity.
  split; [exact Hrun|].
  destruct (get_tags_returns_from_last_attempt scripted render_errors (lit "llama3.2") 3
              raft_document raft_answers raft_record Hrun)
    as (made & failed & t1 & Hmade & _ & _ & Hlen & _).
  exists made. split; [exact Hlen|exact Hmade].
Defined.

Lemma get_tags_logs_error_iff_raises_witness :
  (result_of (run_scripted 2 raft_document []) = Raised (retries_exhausted 2)
   /\ exists t,
        trace_of (run_scripted 2 raft_document [])
        = t ++ [ LogError (lit "All attempts failed to generate valid tags") ]
        /\ log_errors t = [])
  /\ (result_of (run_scripted 3 raft_document raft_answers) <> Raised (retries_exhausted 3)
      /\ log_errors (trace_of (run_scripted 3 raft_document raft_answers)) = []).
Proof.
  assert (Hrun : result_of (run_scripted 2 raft_document []) = Raised (retries_exhausted 2))
    by reflexivity.
  assert (Hok : result_of (run_scripted 3 raft_document raft_answers)
                <> Raised (retries_exhausted 3)) by discriminate.
  split; (split; [assumption|]).
  - exact (proj1 (get_tags_logs_error_iff_raises scripted render_errors (lit "llama3.2") 2
                    raft_document []) Hrun).
  - exact (proj2 (get_tags_logs_error_iff_raises scripted render_errors (lit "llama3.2") 3
                    raft_document raft_answers) Hok).
Defined.

Lemma get_tags_requests_when_answered_witness :
  always_answers mute /\
  List.length (chats (trace_of (get_tags mute render_errors (lit "llama3.2") 2
                                  raft_document tt)))
  = (Z.to_nat 2 * 4)%nat.
Proof.
  assert (Hmute : always_answers mute).
  { intros model msgs opts w. exists [], w. reflexivity. }
  split; [exact Hmute|].
  destruct (get_tags_requests_when_answered mute render_errors (lit "llama3.2") 2
              raft_document tt Hmute) as (made & _ & _ & Hall).
  apply (Hall (retries_exhausted 2)). reflexivity.
Defined.

Lemma failed_attempt_warnings_witness :
  let e := DependencyError (lit "connection refused") in
  result_of (attempt_body scripted render_errors (lit "llama3.2") raft_document 0 [])
  = Raised e
  /\ log_warnings
       (trace_of (iteration scripted render_errors (lit "llama3.2") 2 raft_document 0 []))
     = [ attempt_failed render_errors (0 + 1) e; attempt_failed render_errors (0 + 1) e ].
Proof.
  intros e.
  assert (Hres : result_of (attempt_body scripted render_errors (lit "llama3.2")
                              raft_document 0 []) = Raised e) by reflexivity.
  split; [exact Hres|].
  exact (failed_attempt_warnings scripted render_errors (lit "llama3.2") 2
           raft_document 0 [] e Hres).
Defined.

Lemma returned_fields_are_trimmed_witness :
  result_of (run_scripted 3 raft_document raft_answers) = Returns (Some raft_record)
  /\ trimmed (title raft_record) /\ trimmed (category raft_record)
  /\ trimmed (tags raft_record) /\ trimmed (description raft_record).
Proof.
  assert (Hrun : result_of (run_scripted 3 raft_document raft_answers)
                 = Returns (Some raft_record)) by reflexivity.
  split; [exact Hrun|].
  exact (proj2 (returned_fields_are_trimmed scripted render_errors (lit "llama3.2") 3)
           raft_document raft_answers raft_record Hrun).
Defined.

Lemma validated_record_validates_to_itself_witness :
  TaggingModel_init blockchain_dict raft_answers
  = (Returns (validated_record blockchain_dict), raft_answers,
     category_prints (category blockchain_dict))
  /\ TaggingModel_init (validated_record blockchain_dict) raft_answers
     = (Returns (validated_record blockchain_dict), raft_answers, []).
Proof.
  assert (Hinit : TaggingModel_init blockchain_dict raft_answers
                  = (Returns (validated_record blockchain_dict), raft_answers,
                     category_prints (category blockchain_dict))) by reflexivity.
  split; [exact Hinit|].
  exact (proj1 (validated_record_validates_to_itself scripted render_errors
                  (lit "llama3.2") 3) _ _ _ _ raft_answers _ Hinit).
Defined.

Lemma get_tags_same_on_agreeing_documents_witness :
  slice_to 1500 (long_document (lit "A")) = slice_to 1500 (long_document (lit "B"))
  /\ heading_lines (long_document (lit "A")) = heading_lines (long_document (lit "B"))
  /\ run_scripted 3 (long_document (lit "A")) raft_answers
     = run_scripted 3 (long_document (lit "B")) raft_answers.
Proof.
  assert (H1500 : slice_to 1500 (long_document (lit "A"))
                  = slice_to 1500 (long_document (lit "B"))) by (vm_compute; reflexivity).
  assert (Hhead : heading_lines (long_document (lit "A"))
                  = heading_lines (long_document (lit "B"))) by (vm_compute; reflexivity).
  split; [exact H1500|]. split; [exact Hhead|].
  exact (get_tags_same_on_agreeing_documents scripted render_errors (lit "llama3.2") 3
           _ _ raft_answers H1500 Hhead).
Defined.

Lemma validate_category_keeps_members_witness :
  is_category (lit "Database Systems")
  /\ validate_category (lit "Database Systems") tt = (Returns (lit "Database Systems"), tt, []).
Proof.
  assert (Hin : is_category (lit "Database Systems")).
  { exact (value_is_category DATABASE_SYSTEMS). }
  split; [exact Hin|].
  exact (proj1 (@validate_category_keeps_members unit) (lit "Database Systems") tt Hin).
Defined.

Lemma category_prompt_reads_prefix_witness :
  slice_to 1000 (long_document (lit "A")) = slice_to 1000 (long_document (lit "B"))
  /\ _create_category_prompt (long_document (lit "A")) (lit "T")
     = _create_category_prompt (long_document (lit "B")) (lit "T").
Proof.
  assert (H1000 : slice_to 1000 (long_document (lit "A"))
                  = slice_to 1000 (long_document (lit "B"))) by (vm_compute; reflexivity).
  split; [exact H1000|].
  exact (proj1 (category_prompt_reads_prefix _ _ (lit "T") H1000)).
Defined.

Lemma description_prompt_reads_headings_witness :
  (heading_lines headed_document = heading_lines headings_only_document
   /\ _create_description_prompt headed_document [] [] []
      = _create_description_prompt headings_only_document [] [] [])
  /\ (heading_lines plain_document = []
      /\ _create_description_prompt plain_document [] [] []
         = _create_description_prompt [] [] [] []).
Proof.
  assert (Hsame : heading_lines headed_document = heading_lines headings_only_document)
    by reflexivity.
  assert (Hnone : heading_lines plain_document = []) by reflexivity.
  split; (split; [assumption|]).
  - exact (proj1 (description_prompt_reads_headings headed_document headings_only_document
                    [] [] []) Hsame).
  - exact (proj2 (description_prompt_reads_headings plain_document [] [] [] []) Hnone).
Defined.
